(** * Inventory system: a shallow embedding of [inventory_system.py]

    The module keeps one process-wide dictionary [STOCK_DATA] from item
    names to quantities, mutates it through [add_item] and [remove_item],
    reads it through [get_qty] and [check_low_items], and stores it in a
    JSON file through [save_data] and [load_data].

    The embedding threads an explicit [world] (the dictionary, the disk,
    the records handed to [logging], the clock) through a small state and
    exception monad; [print_data] and [main] also write to a console.
    Python objects are the type [value]; floats are not represented, every
    other JSON value is.  Text is [string], one character per code point
    below 256.  An [int] is a [Z]; its decimal text exists up to
    [int_max_str_digits] digits, as in the interpreter, and [str], [repr],
    an f-string or [json.dump] raise [ValueError] beyond.  The recursion
    limit of the interpreter is taken into account where the depth of the
    calls follows the data, in [json.load]; [logging] keeps what goes wrong
    while it formats a record to itself, so a record is kept as the
    arguments it was given. *)

From Stdlib Require Import ZArith NArith List String Ascii Bool Lia.
From Stdlib Require Import DecimalString DecimalZ.
From Stdlib Require DecimalFacts DecimalPos.
Import ListNotations.

Set Warnings "-register-all".

Local Open Scope string_scope.
Local Open Scope Z_scope.

(** ** Python objects *)

(** The objects the module meets: [None], [bool], [int], [str], [list] and
    [dict] with [str] keys.  A [float], which [json.load] can bring in from
    a file, has no counterpart: what is stated of stored quantities is
    stated of these objects. *)
Inductive value : Type :=
| VNone
| VBool (b : bool)
| VInt (z : Z)
| VStr (s : string)
| VList (l : list value)
| VDict (d : list (string * value)).

(** A [dict] keeps its keys in insertion order; every key this program
    ever stores is a [str]. *)
Definition dict : Type := list (string * value).

Inductive oserror : Type :=
| FileNotFoundError
| PermissionError
| IsADirectoryError
| OtherOSError.

Inductive exn : Type :=
| OSError (k : oserror)
| TypeError
| AttributeError
| KeyError (msg : string)
| ValueError
| UnicodeDecodeError
| JSONDecodeError.

Inductive result (A : Type) : Type :=
| Ok (a : A)
| Raise (e : exn).
Arguments Ok {A} a.
Arguments Raise {A} e.

(** [isinstance(v, str)] and [isinstance(v, int)].  [bool] is a subclass of
    [int]. *)
Definition isinstance_str (v : value) : bool :=
  match v with VStr _ => true | _ => false end.

Definition isinstance_int (v : value) : bool :=
  match v with VInt _ | VBool _ => true | _ => false end.

(** The integer an [int] instance denotes. *)
Definition int_of (v : value) : option Z :=
  match v with
  | VInt z => Some z
  | VBool true => Some 1
  | VBool false => Some 0
  | _ => None
  end.

(** [a + b], [a - b] on the objects above. *)
Definition py_add (a b : value) : result value :=
  match int_of a, int_of b with
  | Some x, Some y => Ok (VInt (x + y))
  | _, _ =>
      match a, b with
      | VStr s, VStr t => Ok (VStr (s ++ t))
      | VList l, VList m => Ok (VList (l ++ m))
      | _, _ => Raise TypeError
      end
  end.

Definition py_sub (a b : value) : result value :=
  match int_of a, int_of b with
  | Some x, Some y => Ok (VInt (x - y))
  | _, _ => Raise TypeError
  end.

(** [v <= n] and [v < n] against an [int] right operand. *)
Definition py_le_int (v : value) (n : Z) : result bool :=
  match int_of v with
  | Some x => Ok (x <=? n)
  | None => Raise TypeError
  end.

Definition py_lt_int (v : value) (n : Z) : result bool :=
  match int_of v with
  | Some x => Ok (x <? n)
  | None => Raise TypeError
  end.

(** The decimal text of an integer. *)
Definition string_of_Z (z : Z) : string :=
  NilZero.string_of_int (Z.to_int z).

(** The digits of a numeral, its sign left out. *)
Definition numeral_digits (text : string) : nat :=
  match text with
  | String c t => if Ascii.eqb c "-" then String.length t else String.length text
  | EmptyString => O
  end.

Definition int_digits (z : Z) : nat := numeral_digits (string_of_Z z).

(** [sys.get_int_max_str_digits()], at its default. *)
Definition int_max_str_digits : nat := 4300.

(** [str(z)] for an [int]: a [ValueError] when the decimal text would have
    more than [int_max_str_digits] digits. *)
Definition int_str (z : Z) : result string :=
  if (int_digits z <=? int_max_str_digits)%nat then Ok (string_of_Z z)
  else Raise ValueError.

(** ** Text of objects: [repr] and [str] *)

(** [repr] of a [str]: double quotes when the text holds a single quote
    and no double quote, single quotes otherwise; the quote in use and the
    backslash are escaped, tab, newline and carriage return are written
    with their letter, every other character that is not printable in
    hexadecimal. *)
Definition printable (c : ascii) : bool :=
  let n := N_of_ascii c in
  ((32 <=? n) && (n <=? 126) || (161 <=? n) && negb (n =? 173))%N.

Definition hexchar (n : N) : ascii :=
  if (n <? 10)%N then ascii_of_N (48 + n) else ascii_of_N (87 + n).

Definition repr_char (quote c : ascii) : string :=
  let n := N_of_ascii c in
  if Ascii.eqb c quote || (n =? 92)%N then String "092"%char (String c "")
  else if (n =? 9)%N then String "092"%char "t"
  else if (n =? 10)%N then String "092"%char "n"
  else if (n =? 13)%N then String "092"%char "r"
  else if printable c then String c ""
  else String "092"%char
         (String "x" (String (hexchar (n / 16)) (String (hexchar (n mod 16)) ""))).

Fixpoint has_char (c : ascii) (s : string) : bool :=
  match s with
  | EmptyString => false
  | String a s' => Ascii.eqb a c || has_char c s'
  end.

Fixpoint repr_chars (quote : ascii) (s : string) : string :=
  match s with
  | EmptyString => EmptyString
  | String c s' => repr_char quote c ++ repr_chars quote s'
  end.

Definition repr_str (s : string) : string :=
  let quote :=
    if has_char "039"%char s && negb (has_char "034"%char s)
    then "034"%char else "039"%char in
  String quote (repr_chars quote s ++ String quote "").

Section ReprAll.

Variable repr : value -> result string.

(** The [repr] of the elements of a list, in order, up to the first that
    raises. *)
Fixpoint repr_items (l : list value) : result (list string) :=
  match l with
  | [] => Ok []
  | x :: l' =>
      match repr x with
      | Raise e => Raise e
      | Ok t =>
          match repr_items l' with
          | Raise e => Raise e
          | Ok ts => Ok (t :: ts)
          end
      end
  end.

(** The same for the entries of a [dict], each shown as [key: value]. *)
Fixpoint repr_entries (d : list (string * value)) : result (list string) :=
  match d with
  | [] => Ok []
  | (k, v) :: d' =>
      match repr v with
      | Raise e => Raise e
      | Ok t =>
          match repr_entries d' with
          | Raise e => Raise e
          | Ok ts => Ok ((repr_str k ++ ": " ++ t) :: ts)
          end
      end
  end.

End ReprAll.

(** [repr(v)] *)
Fixpoint py_repr (v : value) : result string :=
  match v with
  | VNone => Ok "None"
  | VBool true => Ok "True"
  | VBool false => Ok "False"
  | VInt z => int_str z
  | VStr s => Ok (repr_str s)
  | VList l =>
      match repr_items py_repr l with
      | Ok ts => Ok ("[" ++ String.concat ", " ts ++ "]")
      | Raise e => Raise e
      end
  | VDict d =>
      match repr_entries py_repr d with
      | Ok ts => Ok ("{" ++ String.concat ", " ts ++ "}")
      | Raise e => Raise e
      end
  end.

(** [str(v)], which is also what an f-string field shows. *)
Definition py_str (v : value) : result string :=
  match v with
  | VStr s => Ok s
  | _ => py_repr v
  end.

(** ** Dictionaries in insertion order *)

Module Dict.

Fixpoint lookup (d : dict) (k : string) : option value :=
  match d with
  | [] => None
  | (k', v) :: rest => if String.eqb k' k then Some v else lookup rest k
  end.

Definition mem (d : dict) (k : string) : bool :=
  match lookup d k with Some _ => true | None => false end.

(** [d[k] = v]: an existing key keeps its place, a new key goes last. *)
Fixpoint set (d : dict) (k : string) (v : value) : dict :=
  match d with
  | [] => [(k, v)]
  | (k', v') :: rest =>
      if String.eqb k' k then (k', v) :: rest else (k', v') :: set rest k v
  end.

(** [del d[k]]. *)
Definition remove (d : dict) (k : string) : dict :=
  filter (fun kv => negb (String.eqb (fst kv) k)) d.

Definition keys (d : dict) : list string := map fst d.

End Dict.

(** The container protocol on whatever object [STOCK_DATA] is bound to. *)

(** [c.get(key, default)] *)
Definition method_get (c key default : value) : result value :=
  match c with
  | VDict d =>
      match key with
      | VStr k =>
          Ok (match Dict.lookup d k with Some v => v | None => default end)
      | VList _ | VDict _ => Raise TypeError
      | _ => Ok default
      end
  | _ => Raise AttributeError
  end.

(** Is [t] a substring of [s]? *)
Fixpoint substringb (t s : string) : bool :=
  String.prefix t s ||
  match s with
  | EmptyString => false
  | String _ s' => substringb t s'
  end.

(** [k in c] *)
Definition contains (c : value) (k : string) : result bool :=
  match c with
  | VDict d => Ok (Dict.mem d k)
  | VList l =>
      Ok (existsb (fun v => match v with VStr s => String.eqb s k | _ => false end) l)
  | VStr s => Ok (substringb k s)
  | _ => Raise TypeError
  end.

(** [c[k]] with a [str] subscript. *)
Definition getitem (c : value) (k : string) : result value :=
  match c with
  | VDict d =>
      match Dict.lookup d k with
      | Some v => Ok v
      | None => Raise (KeyError k)
      end
  | _ => Raise TypeError
  end.

(** [c[k] = v] *)
Definition setitem (c : value) (k : string) (v : value) : result value :=
  match c with
  | VDict d => Ok (VDict (Dict.set d k v))
  | _ => Raise TypeError
  end.

(** [del c[k]] *)
Definition delitem (c : value) (k : string) : result value :=
  match c with
  | VDict d =>
      if Dict.mem d k then Ok (VDict (Dict.remove d k)) else Raise (KeyError k)
  | _ => Raise TypeError
  end.

(** [c.items()] *)
Definition method_items (c : value) : result dict :=
  match c with
  | VDict d => Ok d
  | _ => Raise AttributeError
  end.

(** ** The world the module runs in *)

(** What a path names on disk.  [Undecodable] is a file whose bytes are not
    UTF-8 text; [Blocked k] is a path on which [open] raises [OSError k] (a
    directory, a permission failure, a missing parent directory). *)
Inductive node : Type :=
| Absent
| File (text : string)
| Undecodable
| Blocked (k : oserror).

Inductive loglevel : Type := INFO | WARNING | ERROR.

Inductive logarg : Type :=
| ArgValue (v : value)
| ArgExn (e : exn).

(** One call of [logging.info], [logging.warning] or [logging.error]: the
    message object and the arguments merged into it. *)
Inductive logmsg : Type :=
| Template (fmt : string)
| Exception (e : exn).

Record log_record : Type := mkLog
  { level : loglevel; msg : logmsg; args : list logarg }.

Record world : Type := mkWorld
  { STOCK_DATA : value;
    disk : string -> node;
    log : list log_record;
    now : string }.

Definition INVENTORY_FILE : string := "inventory.json".

Definition with_stock (w : world) (v : value) : world :=
  mkWorld v (disk w) (log w) (now w).

Definition with_disk (w : world) (f : string -> node) : world :=
  mkWorld (STOCK_DATA w) f (log w) (now w).

Definition with_log (w : world) (l : list log_record) : world :=
  mkWorld (STOCK_DATA w) (disk w) l (now w).

(** A statement: runs in a world, returns or raises, leaves a world. *)
Definition M (A : Type) : Type := world -> result A * world.

Definition ret {A} (a : A) : M A := fun w => (Ok a, w).

Definition bind {A B} (m : M A) (k : A -> M B) : M B :=
  fun w =>
    match m w with
    | (Ok a, w') => k a w'
    | (Raise e, w') => (Raise e, w')
    end.

Definition raise {A} (e : exn) : M A := fun w => (Raise e, w).

Definition lift {A} (r : result A) : M A := fun w => (r, w).

(** [try: body except <handles>: handler] *)
Definition try_except {A} (body : M A) (handles : exn -> bool)
    (handler : exn -> M A) : M A :=
  fun w =>
    match body w with
    | (Ok a, w') => (Ok a, w')
    | (Raise e, w') => if handles e then handler e w' else (Raise e, w')
    end.

Declare Scope py_scope.
Delimit Scope py_scope with py.
Notation "x <- m ;; k" := (bind m (fun x => k))
  (at level 61, m at next level, right associativity) : py_scope.
Notation "m ;; k" := (bind m (fun _ => k))
  (at level 61, right associativity) : py_scope.
Local Open Scope py_scope.

Definition read_stock : M value := fun w => (Ok (STOCK_DATA w), w).

Definition bind_stock (v : value) : M unit := fun w => (Ok tt, with_stock w v).

Definition logging (lv : loglevel) (m : logmsg) (a : list logarg) : M unit :=
  fun w => (Ok tt, with_log w (log w ++ [mkLog lv m a])).

Definition datetime_now : M string := fun w => (Ok (now w), w).

Definition update (f : string -> node) (p : string) (n : node) : string -> node :=
  fun q => if String.eqb q p then n else f q.

(** [open(path, "r", encoding="utf-8")] followed by reading the file. *)
Definition open_read (path : string) : M string :=
  fun w =>
    match disk w path with
    | Absent => (Raise (OSError FileNotFoundError), w)
    | File text => (Ok text, w)
    | Undecodable => (Raise UnicodeDecodeError, w)
    | Blocked k => (Raise (OSError k), w)
    end.

(** [open(path, "w", encoding="utf-8")]: creates or truncates the file. *)
Definition open_write (path : string) : M unit :=
  fun w =>
    match disk w path with
    | Blocked k => (Raise (OSError k), w)
    | _ => (Ok tt, with_disk w (update (disk w) path (File "")))
    end.

(** [file.write(text)] on the file opened at [path]. *)
Definition write (path text : string) : M unit :=
  fun w =>
    match disk w path with
    | File old => (Ok tt, with_disk w (update (disk w) path (File (old ++ text))))
    | _ => (Ok tt, w)
    end.

(** ** The module's functions *)

(** The [json] library as the module uses it.  [json_dump v] is the text
    [json.dump(v, file, indent=4)] writes and the exception it ends with, if
    any; [json_load text] is what [json.load] makes of a file's text. *)
Record json_module : Type := mkJson
  { json_dump : value -> string * option exn;
    json_load : string -> result value }.

Definition is_TypeError (e : exn) : bool :=
  match e with TypeError => true | _ => false end.

Definition is_KeyError (e : exn) : bool :=
  match e with KeyError _ => true | _ => false end.

Definition is_FileNotFoundError (e : exn) : bool :=
  match e with OSError FileNotFoundError => true | _ => false end.

(** [IOError] is an alias of [OSError]. *)
Definition is_IOError (e : exn) : bool :=
  match e with OSError _ => true | _ => false end.

Section Inventory.

Variable json : json_module.

(** [add_item(item, qty, logs)].  The pattern [VStr name, true] is the test
    [isinstance(item, str) and isinstance(qty, int)] passing, with [name]
    the text of [item]; the other branch is the early return.  The f-string
    for the log collector comes after the mapping is updated, and raises
    [ValueError] when the quantity has no decimal text.  The result is the
    contents of the list [logs] is bound to when the function ends. *)
Definition add_item (item qty : value) (logs : option (list string))
  : M (list string) :=
  let logs := match logs with None => [] | Some l => l end in
  match item, isinstance_int qty with
  | VStr name, true =>
      stock <- read_stock ;;
      old <- lift (method_get stock item (VInt 0)) ;;
      new <- lift (py_add old qty) ;;
      stock' <- lift (setitem stock name new) ;;
      bind_stock stock' ;;
      t <- datetime_now ;;
      shown <- lift (py_str qty) ;;
      let entry := t ++ ": Added " ++ shown ++ " of " ++ name in
      let logs := (logs ++ [entry])%list in
      logging INFO (Template "Added %d of %s") [ArgValue qty; ArgValue item] ;;
      ret logs
  | _, _ =>
      logging ERROR (Template "Invalid item or quantity type for item '%s'")
              [ArgValue item] ;;
      ret logs
  end.

(** [remove_item(item, qty)], with the same type test. *)
Definition remove_item (item qty : value) : M unit :=
  match item, isinstance_int qty with
  | VStr name, true =>
      try_except
        (stock <- read_stock ;;
         present <- lift (contains stock name) ;;
         if negb present then
           raise (KeyError ("Item '" ++ name ++ "' not found"))
         else
           cur <- lift (getitem stock name) ;;
           new <- lift (py_sub cur qty) ;;
           stock1 <- lift (setitem stock name new) ;;
           bind_stock stock1 ;;
           v <- lift (getitem stock1 name) ;;
           le <- lift (py_le_int v 0) ;;
           (if le : bool then
              stock2 <- lift (delitem stock1 name) ;;
              bind_stock stock2
            else ret tt) ;;
           logging INFO (Template "Removed %d of %s") [ArgValue qty; ArgValue item])
        is_KeyError
        (fun exc => logging WARNING (Exception exc) [])
  | _, _ =>
      logging ERROR (Template "Invalid item or quantity type for removal.") []
  end.

(** [get_qty(item)] *)
Definition get_qty (item : value) : M value :=
  stock <- read_stock ;;
  lift (method_get stock item (VInt 0)).

(** [load_data(file_path)] *)
Definition load_data (file_path : string) : M unit :=
  try_except
    (text <- open_read file_path ;;
     data <- lift (json_load json text) ;;
     bind_stock data ;;
     logging INFO (Template "Loaded inventory from %s") [ArgValue (VStr file_path)])
    is_FileNotFoundError
    (fun _ =>
       logging WARNING
         (Template "Inventory file not found, starting with empty data.") [] ;;
       bind_stock (VDict [])).

(** [save_data(file_path)] *)
Definition save_data (file_path : string) : M unit :=
  try_except
    (open_write file_path ;;
     stock <- read_stock ;;
     (let (text, failure) := json_dump json stock in
      write file_path text ;;
      match failure with
      | Some e => raise e
      | None => ret tt
      end) ;;
     logging INFO (Template "Saved inventory to %s") [ArgValue (VStr file_path)])
    (fun e => is_IOError e || is_TypeError e)
    (fun exc =>
       logging ERROR (Template "Failed to save inventory: %s") [ArgExn exc]).

(** The comprehension [[item for item, qty in items if qty < threshold]]. *)
Fixpoint low_items (items : dict) (threshold : Z) : result (list string) :=
  match items with
  | [] => Ok []
  | (item, qty) :: rest =>
      match py_lt_int qty threshold with
      | Raise e => Raise e
      | Ok low =>
          match low_items rest threshold with
          | Raise e => Raise e
          | Ok names => Ok (if low then item :: names else names)
          end
      end
  end.

(** [check_low_items(threshold)] *)
Definition check_low_items (threshold : Z) : M (list string) :=
  stock <- read_stock ;;
  items <- lift (method_items stock) ;;
  lift (low_items items threshold).

End Inventory.

(** ** The [json] library on the objects above

    [PyJson.dump] follows the encoder of [json.dump(obj, fp, indent=4)]
    (item separator [","], key separator [": "], [ensure_ascii] on), piece
    by piece, so that it tells what is in the file when an [int] without a
    decimal text stops it;
    [PyJson.load] follows the decoder behind [json.load] (the scanner and
    [scanstring] of the C accelerator, strict mode) as far as the objects
    above go, and says where it stops following it: on a document with a
    float (a number with a fraction or an exponent, [NaN], [Infinity]), on
    an escape naming a code point above 255, and on nesting deeper than
    [max_nesting], where the recursion limit of the interpreter and the
    calls in progress decide. *)

Module PyJson.

Definition dquote : ascii := "034"%char.
Definition backslash : ascii := "092"%char.
Definition LF : ascii := "010"%char.

Definition code (c : ascii) : N := N_of_ascii c.

(** *** Encoder *)

Definition hexdigit (n : N) : ascii :=
  if (n <? 10)%N then ascii_of_N (48 + n) else ascii_of_N (87 + n).

(** One character of [py_encode_basestring_ascii]. *)
Definition escape (c : ascii) : string :=
  let n := code c in
  if (n =? 34)%N then String backslash (String dquote "")
  else if (n =? 92)%N then String backslash (String backslash "")
  else if (n =? 8)%N then String backslash "b"
  else if (n =? 12)%N then String backslash "f"
  else if (n =? 10)%N then String backslash "n"
  else if (n =? 13)%N then String backslash "r"
  else if (n =? 9)%N then String backslash "t"
  else if ((32 <=? n) && (n <=? 126))%N then String c ""
  else String backslash
         (String "u" (String "0" (String "0"
            (String (hexdigit (n / 16)) (String (hexdigit (n mod 16)) ""))))).

Fixpoint escape_all (s : string) : string :=
  match s with
  | EmptyString => EmptyString
  | String c s' => escape c ++ escape_all s'
  end.

Definition encode_basestring_ascii (s : string) : string :=
  String dquote (escape_all s ++ String dquote "").

Fixpoint spaces (n : nat) : string :=
  match n with
  | O => ""
  | S n' => String " " (spaces n')
  end.

(** ["\n" + _indent * level] with [_indent] four spaces. *)
Definition newline_indent (level : nat) : string :=
  String LF (spaces (4 * level)).

(** What an encoder has written, and the exception that stopped it, if
    any. *)
Definition chunks : Type := (string * option exn)%type.

Definition yield (t : string) : chunks := (t, None).

Definition and_then (a b : chunks) : chunks :=
  match a with
  | (t, Some e) => (t, Some e)
  | (t, None) => (t ++ fst b, snd b)
  end.

(** The text of an object that is written in one piece: [None], a [bool],
    an [int] (through [int.__repr__], which may raise), a [str]. *)
Definition scalar (o : value) : option (result string) :=
  match o with
  | VNone => Some (Ok "null")
  | VBool true => Some (Ok "true")
  | VBool false => Some (Ok "false")
  | VInt z => Some (int_str z)
  | VStr s => Some (Ok (encode_basestring_ascii s))
  | VList _ | VDict _ => None
  end.

Section Loops.

Variable encode : value -> chunks.
Variable separator : string.

(** The loop of [_iterencode_list]: [buf] is the opening bracket for the
    first element and the separator for the others; it is written together
    with an element that is in one piece, and on its own before a list or a
    [dict]. *)
Fixpoint list_loop (buf : string) (l : list value) : chunks :=
  match l with
  | [] => yield ""
  | x :: l' =>
      and_then
        match scalar x with
        | Some (Ok t) => yield (buf ++ t)
        | Some (Raise e) => ("", Some e)
        | None => and_then (yield buf) (encode x)
        end
        (list_loop separator l')
  end.

(** The loop of [_iterencode_dict]: separator, key and colon are written
    before the value is looked at. *)
Fixpoint dict_loop (first : bool) (d : list (string * value)) : chunks :=
  match d with
  | [] => yield ""
  | (k, v) :: d' =>
      and_then (yield (if first then "" else separator))
        (and_then (yield (encode_basestring_ascii k))
           (and_then (yield ": ")
              (and_then (encode v) (dict_loop false d'))))
  end.

End Loops.

Fixpoint iterencode (o : value) (level : nat) : chunks :=
  match o with
  | VList [] => yield "[]"
  | VList l =>
      and_then
        (list_loop (fun x => iterencode x (S level))
           ("," ++ newline_indent (S level))
           ("[" ++ newline_indent (S level)) l)
        (and_then (yield (newline_indent level)) (yield "]"))
  | VDict [] => yield "{}"
  | VDict d =>
      and_then (yield "{")
        (and_then (yield (newline_indent (S level)))
           (and_then
              (dict_loop (fun x => iterencode x (S level))
                 ("," ++ newline_indent (S level)) true d)
              (and_then (yield (newline_indent level)) (yield "}"))))
  | _ =>
      match scalar o with
      | Some (Ok t) => yield t
      | Some (Raise e) => ("", Some e)
      | None => yield ""
      end
  end.

Definition dump (o : value) : string * option exn := iterencode o 0.

(** *** Decoder *)

Definition is_ws (c : ascii) : bool :=
  let n := code c in
  ((n =? 32) || (n =? 9) || (n =? 10) || (n =? 13))%N.

Definition is_digit (c : ascii) : bool :=
  let n := code c in ((48 <=? n) && (n <=? 57))%N.

Fixpoint skip_ws (s : string) : string :=
  match s with
  | String c s' => if is_ws c then skip_ws s' else s
  | EmptyString => s
  end.

Definition hexval (c : ascii) : option N :=
  let n := code c in
  if ((48 <=? n) && (n <=? 57))%N then Some (n - 48)%N
  else if ((97 <=? n) && (n <=? 102))%N then Some (n - 87)%N
  else if ((65 <=? n) && (n <=? 70))%N then Some (n - 55)%N
  else None.

Definition decode_uXXXX (a b c d : ascii) : option N :=
  match hexval a, hexval b, hexval c, hexval d with
  | Some x, Some y, Some z, Some t => Some (((x * 16 + y) * 16 + z) * 16 + t)%N
  | _, _, _, _ => None
  end.

(** The table [BACKSLASH]. *)
Definition unescape (e : ascii) : option ascii :=
  let n := code e in
  if (n =? 34)%N then Some dquote
  else if (n =? 92)%N then Some backslash
  else if (n =? 47)%N then Some "/"%char
  else if (n =? 98)%N then Some "008"%char
  else if (n =? 102)%N then Some "012"%char
  else if (n =? 110)%N then Some "010"%char
  else if (n =? 114)%N then Some "013"%char
  else if (n =? 116)%N then Some "009"%char
  else None.

(** What the decoder makes of a text: [Some] of what [json.load] does, or
    [None] on a document this model does not follow the library on. *)
Definition decoded (A : Type) : Type := option (result A).

Definition fails {A : Type} : decoded A := Some (Raise JSONDecodeError).

Definition cons_char (c : ascii) (r : decoded (string * string))
  : decoded (string * string) :=
  match r with
  | Some (Ok (t, rest)) => Some (Ok (String c t, rest))
  | other => other
  end.

(** [scanstring] in strict mode, from just after the opening quote:
    the decoded text and what follows the closing quote. *)
Fixpoint scanstring (s : string) : decoded (string * string) :=
  match s with
  | EmptyString => fails
  | String c s1 =>
      if (code c =? 34)%N then Some (Ok ("", s1))
      else if (code c =? 92)%N then
        match s1 with
        | EmptyString => fails
        | String e s2 =>
            if (code e =? 117)%N then
              match s2 with
              | String h1 (String h2 (String h3 (String h4 s3))) =>
                  match decode_uXXXX h1 h2 h3 h4 with
                  | Some n =>
                      if (n <? 256)%N
                      then cons_char (ascii_of_N n) (scanstring s3)
                      else None
                  | None => fails
                  end
              | _ => fails
              end
            else
              match unescape e with
              | Some ch => cons_char ch (scanstring s2)
              | None => fails
              end
        end
      else if (code c <? 32)%N then fails
      else cons_char c (scanstring s1)
  end.

Fixpoint span_digits (s : string) : string * string :=
  match s with
  | String c s' =>
      if is_digit c then let (ds, rest) := span_digits s' in (String c ds, rest)
      else ("", s)
  | EmptyString => ("", s)
  end.

(** The integer part of [NUMBER_RE]: an optional minus sign, then a lone
    zero or a nonzero digit with all the digits after it. *)
Definition match_integer (s : string) : option (string * string) :=
  let (sign, s1) :=
    match s with
    | String c s' => if (code c =? 45)%N then ("-", s') else ("", s)
    | EmptyString => ("", s)
    end in
  match s1 with
  | String c s2 =>
      if (code c =? 48)%N then Some (sign ++ "0", s2)
      else if is_digit c then
        let (ds, rest) := span_digits s2 in Some (sign ++ String c ds, rest)
      else None
  | EmptyString => None
  end.

Definition starts_digit (s : string) : bool :=
  match s with String c _ => is_digit c | EmptyString => false end.

(** Does a fraction (a dot and a digit) or an exponent (e or E, an
    optional sign, a digit) follow? *)
Definition float_follows (s : string) : bool :=
  match s with
  | String c s' =>
      if (code c =? 46)%N then starts_digit s'
      else if ((code c =? 101) || (code c =? 69))%N then
        match s' with
        | String g s'' =>
            if ((code g =? 45) || (code g =? 43))%N then starts_digit s''
            else is_digit g
        | EmptyString => false
        end
      else false
  | EmptyString => false
  end.

(** [int(text)] on a match of the integer part: a [ValueError] when the
    numeral has more than [int_max_str_digits] digits. *)
Definition parse_int (text : string) : result Z :=
  if (numeral_digits text <=? int_max_str_digits)%nat then
    match NilZero.int_of_string text with
    | Some d => Ok (Z.of_int d)
    | None => Raise JSONDecodeError
    end
  else Raise ValueError.

Definition scan_number (s : string) : decoded (value * string) :=
  match match_integer s with
  | Some (text, rest) =>
      if float_follows rest then None
      else match parse_int text with
           | Ok z => Some (Ok (VInt z, rest))
           | Raise e => Some (Raise e)
           end
  | None => fails
  end.

(** [dict(pairs)]: a repeated key keeps its first place and last value. *)
Definition dict_of_pairs (pairs : list (string * value)) : dict :=
  fold_left (fun d kv => Dict.set d (fst kv) (snd kv)) pairs [].

(** The constants the scanner reads as floats. *)
Definition float_constant (s : string) : bool :=
  String.prefix "NaN" s || String.prefix "Infinity" s
  || String.prefix "-Infinity" s.

(** [scan_once], with the loops of [JSONObject] and [JSONArray].  The
    loops start where a key (just after its opening quote) or an element
    begins.  [depth] is the number of objects and arrays that may still be
    entered, one inside the other; [fuel] bounds the number of calls one
    inside the other and makes the recursion structural: there are at most
    two of them for each character read, and [load] starts with as many. *)
Fixpoint scan_once (fuel depth : nat) (s : string) {struct fuel}
  : decoded (value * string) :=
  match fuel with
  | O => None
  | S fuel' =>
      match s with
      | EmptyString => fails
      | String c s1 =>
          if (code c =? 34)%N then
            match scanstring s1 with
            | Some (Ok (t, rest)) => Some (Ok (VStr t, rest))
            | Some (Raise e) => Some (Raise e)
            | None => None
            end
          else if (code c =? 123)%N then
            match depth with
            | O => None
            | S depth' =>
                match skip_ws s1 with
                | String c1 s2 =>
                    if (code c1 =? 125)%N then Some (Ok (VDict [], s2))
                    else if (code c1 =? 34)%N
                    then object_loop fuel' depth' [] s2
                    else fails
                | EmptyString => fails
                end
            end
          else if (code c =? 91)%N then
            match depth with
            | O => None
            | S depth' =>
                match skip_ws s1 with
                | String c1 s2 =>
                    if (code c1 =? 93)%N then Some (Ok (VList [], s2))
                    else array_loop fuel' depth' [] (String c1 s2)
                | EmptyString => fails
                end
            end
          else if String.prefix "null" s then
            Some (Ok (VNone, String.substring 4 (String.length s - 4) s))
          else if String.prefix "true" s then
            Some (Ok (VBool true, String.substring 4 (String.length s - 4) s))
          else if String.prefix "false" s then
            Some (Ok (VBool false, String.substring 5 (String.length s - 5) s))
          else if float_constant s then None
          else scan_number s
      end
  end

with object_loop (fuel depth : nat) (pairs : list (string * value))
  (s : string) {struct fuel} : decoded (value * string) :=
  match fuel with
  | O => None
  | S fuel' =>
      match scanstring s with
      | None => None
      | Some (Raise e) => Some (Raise e)
      | Some (Ok (key, s1)) =>
          match skip_ws s1 with
          | String c s2 =>
              if (code c =? 58)%N then
                match scan_once fuel' depth (skip_ws s2) with
                | None => None
                | Some (Raise e) => Some (Raise e)
                | Some (Ok (v, s3)) =>
                    let pairs := (pairs ++ [(key, v)])%list in
                    match skip_ws s3 with
                    | String c1 s4 =>
                        if (code c1 =? 125)%N then
                          Some (Ok (VDict (dict_of_pairs pairs), s4))
                        else if (code c1 =? 44)%N then
                          match skip_ws s4 with
                          | String c2 s5 =>
                              if (code c2 =? 34)%N
                              then object_loop fuel' depth pairs s5
                              else fails
                          | EmptyString => fails
                          end
                        else fails
                    | EmptyString => fails
                    end
                end
              else fails
          | EmptyString => fails
          end
      end
  end

with array_loop (fuel depth : nat) (vals : list value) (s : string)
  {struct fuel} : decoded (value * string) :=
  match fuel with
  | O => None
  | S fuel' =>
      match scan_once fuel' depth s with
      | None => None
      | Some (Raise e) => Some (Raise e)
      | Some (Ok (v, s1)) =>
          let vals := (vals ++ [v])%list in
          match skip_ws s1 with
          | String c s2 =>
              if (code c =? 93)%N then Some (Ok (VList vals, s2))
              else if (code c =? 44)%N
              then array_loop fuel' depth vals (skip_ws s2)
              else fails
          | EmptyString => fails
          end
      end
  end.

(** Objects and arrays nested this deep are decoded whatever calls are in
    progress when [load_data] runs under the recursion limit the
    interpreter starts with (1000). *)
Definition max_nesting : nat := 900.

(** [JSONDecoder.decode]: one value, white space around it, nothing
    else. *)
Definition load (text : string) : decoded value :=
  match scan_once (S (2 * String.length text)) max_nesting (skip_ws text) with
  | None => None
  | Some (Raise e) => Some (Raise e)
  | Some (Ok (o, rest)) =>
      match skip_ws rest with
      | EmptyString => Some (Ok o)
      | String _ _ => fails
      end
  end.

(** A library that does what [dump] and [load] tell, whatever it does with
    the documents [load] leaves aside. *)
Definition implements (json : json_module) : Prop :=
  (forall o, json_dump json o = dump o) /\
  (forall text r, load text = Some r -> json_load json text = r).

(** One such library, for the statements that need a particular one: it
    refuses the documents [load] leaves aside. *)
Definition module : json_module :=
  mkJson dump
    (fun text =>
       match load text with
       | Some r => r
       | None => Raise JSONDecodeError
       end).

(** *** Shapes of texts *)

(** Does the text start the way an integer does: with a digit, or with a
    minus sign and a digit? *)
Definition numeric_head (s : string) : bool :=
  match s with
  | String c s' => is_digit c || ((code c =? 45)%N && starts_digit s')
  | EmptyString => false
  end.

(** The text of the members of a mapping with integer quantities, from
    just after the opening quote of the first key, up to and including the
    closing brace. *)
Fixpoint members_text (d : dict) (tail : string) : string :=
  match d with
  | [] => tail
  | (k, v) :: d' =>
      escape_all k
      ++ String dquote
           (": " ++ match v with VInt z => string_of_Z z | _ => "" end
            ++ match d' with
               | [] => newline_indent 0 ++ "}" ++ tail
               | _ :: _ =>
                   "," ++ newline_indent 1
                   ++ String dquote (members_text d' tail)
               end)
  end.

End PyJson.


(** ** Stock mappings *)

(** The mappings of the data model: text keys, no key twice, integer
    quantities. *)
Definition int_valued (d : dict) : Prop :=
  Forall (fun kv => exists z, snd kv = VInt z) d.

Definition stock_mapping (d : dict) : Prop :=
  NoDup (Dict.keys d) /\ int_valued d.

(** The names whose quantity is below [threshold], in the order of the
    mapping: what [check_low_items] is specified to return. *)
Definition names_below (d : dict) (threshold : Z) : list string :=
  Dict.keys
    (filter (fun kv => match int_of (snd kv) with
                       | Some q => q <? threshold
                       | None => false
                       end) d).

(** A world with the given mapping, an untouched disk and no log record. *)
Definition fresh_world (stock : value) (t : string) : world :=
  mkWorld stock (fun _ => Absent) [] t.

(** An integer that has a decimal text: at most [int_max_str_digits]
    digits. *)
Definition int_fits (z : Z) : Prop := (int_digits z <= int_max_str_digits)%nat.

(** Every integer quantity of the mapping has a decimal text. *)
Definition quantities_fit (d : dict) : Prop :=
  Forall (fun kv => forall z, snd kv = VInt z -> int_fits z) d.

(** An object that is no number: [None], text, a list or a [dict]. *)
Definition non_numeric (v : value) : Prop :=
  match v with
  | VNone | VStr _ | VList _ | VDict _ => True
  | VBool _ | VInt _ => False
  end.

(** Every entry holds an integer above 0. *)
Definition positive_stock (d : dict) : Prop :=
  Forall (fun kv => exists z, snd kv = VInt z /\ 0 < z) d.


(** The reading of C10 as it stands: every negative removal from a present
    item keeps the entry, with its quantity raised by [|qty|]. *)
Definition negative_removal_always_adds : Prop :=
  forall w d name qty q0,
    STOCK_DATA w = VDict d ->
    Dict.lookup d name = Some (VInt q0) ->
    qty < 0 ->
    exists w' d',
      remove_item (VStr name) (VInt qty) w = (Ok tt, w') /\
      STOCK_DATA w' = VDict d' /\
      Dict.lookup d' name = Some (VInt (q0 + Z.abs qty)).

(** ** Console output: [print_data] and [main] *)

(** A statement that also prints: it runs on a world and on the lines
    written to standard output so far. *)
Definition IO (A : Type) : Type :=
  world * list string -> result A * (world * list string).

Definition io_ret {A} (a : A) : IO A := fun st => (Ok a, st).

Definition io_bind {A B} (m : IO A) (k : A -> IO B) : IO B :=
  fun st =>
    match m st with
    | (Ok a, st') => k a st'
    | (Raise e, st') => (Raise e, st')
    end.

(** A statement of the module, which prints nothing. *)
Definition call {A} (m : M A) : IO A :=
  fun st =>
    match m (fst st) with
    | (r, w') => (r, (w', snd st))
    end.

(** [print(line)] *)
Definition print (line : string) : IO unit :=
  fun st => (Ok tt, (fst st, snd st ++ [line])%list).

Declare Scope io_scope.
Delimit Scope io_scope with io.
Notation "x <- m ;; k" := (io_bind m (fun x => k))
  (at level 61, m at next level, right associativity) : io_scope.
Notation "m ;; k" := (io_bind m (fun _ => k))
  (at level 61, right associativity) : io_scope.

(** The loop [for item, qty in items: print(f"{item} -> {qty}")]. *)
Fixpoint print_items (items : dict) : IO unit :=
  match items with
  | [] => io_ret tt
  | (item, qty) :: rest =>
      (shown <- call (lift (py_str qty)) ;;
       print (item ++ " -> " ++ shown) ;;
       print_items rest)%io
  end.

(** [print_data()] *)
Definition print_data : IO unit :=
  (print "Items Report:" ;;
   stock <- call read_stock ;;
   items <- call (lift (method_items stock)) ;;
   print_items items)%io.

Section Main.

Variable json : json_module.

(** [main()], with the default arguments written out: no log collector,
    threshold 5, [INVENTORY_FILE]. *)
Definition main : IO unit :=
  (call (add_item (VStr "apple") (VInt 10) None) ;;
   call (add_item (VStr "banana") (VInt (-2)) None) ;;
   call (add_item (VInt 123) (VStr "ten") None) ;;
   call (remove_item (VStr "apple") (VInt 3)) ;;
   call (remove_item (VStr "orange") (VInt 1)) ;;
   apple <- call (get_qty (VStr "apple")) ;;
   shown <- call (lift (py_str apple)) ;;
   print ("Apple stock: " ++ shown) ;;
   low <- call (check_low_items 5) ;;
   shown <- call (lift (py_str (VList (map VStr low)))) ;;
   print ("Low items: " ++ shown) ;;
   call (save_data json INVENTORY_FILE) ;;
   call (load_data json INVENTORY_FILE) ;;
   print_data)%io.

End Main.

(** The line [print_data] writes for an entry with an integer quantity. *)
Definition report_line (kv : string * value) : string :=
  fst kv ++ " -> "
  ++ match snd kv with VInt q => string_of_Z q | _ => "" end.

(** The text [add_item] appends to its log collector, [shown] being the
    text of the quantity. *)
Definition added_entry (t shown name : string) : string :=
  t ++ ": Added " ++ shown ++ " of " ++ name.

(** * Properties *)

(** ** Dictionaries *)

Lemma lookup_set_same : forall d k v, Dict.lookup (Dict.set d k v) k = Some v.
Proof.
  induction d as [|[k' v'] rest IH]; intros k v; simpl.
  - now rewrite String.eqb_refl.
  - destruct (String.eqb k' k) eqn:E; simpl; rewrite E; auto.
Qed.

Lemma lookup_set_other : forall d k k' v,
  k' <> k -> Dict.lookup (Dict.set d k v) k' = Dict.lookup d k'.
Proof.
  induction d as [|[k0 v0] rest IH]; intros k k' v Hne; simpl.
  - destruct (String.eqb_spec k k'); congruence.
  - destruct (String.eqb_spec k0 k) as [->|Hk]; simpl.
    + destruct (String.eqb_spec k k'); congruence.
    + destruct (String.eqb k0 k'); auto.
Qed.

Lemma lookup_remove_same : forall d k, Dict.lookup (Dict.remove d k) k = None.
Proof.
  unfold Dict.remove.
  induction d as [|[k' v'] rest IH]; intros k; simpl; auto.
  destruct (String.eqb k' k) eqn:E; simpl; auto.
  now rewrite E.
Qed.

Lemma lookup_remove_other : forall d k k',
  k' <> k -> Dict.lookup (Dict.remove d k) k' = Dict.lookup d k'.
Proof.
  unfold Dict.remove.
  induction d as [|[k0 v0] rest IH]; intros k k' Hne; simpl; auto.
  destruct (String.eqb_spec k0 k) as [->|Hk]; simpl.
  - destruct (String.eqb_spec k k'); [congruence | auto].
  - destruct (String.eqb k0 k'); auto.
Qed.

Lemma remove_set_same : forall d k v,
  Dict.remove (Dict.set d k v) k = Dict.remove d k.
Proof.
  unfold Dict.remove.
  induction d as [|[k' v'] rest IH]; intros k v; simpl.
  - now rewrite String.eqb_refl.
  - destruct (String.eqb k' k) eqn:E; simpl; rewrite E; simpl; auto.
    now rewrite IH.
Qed.

(** A new key goes last; a key already present keeps its place. *)
Lemma set_fresh : forall d k v,
  Dict.lookup d k = None -> Dict.set d k v = (d ++ [(k, v)])%list.
Proof.
  induction d as [|[k' v'] rest IH]; intros k v H; simpl in *; auto.
  destruct (String.eqb k' k); [discriminate | now rewrite IH].
Qed.

Lemma keys_set_present : forall d k v,
  Dict.mem d k = true -> Dict.keys (Dict.set d k v) = Dict.keys d.
Proof.
  unfold Dict.mem, Dict.keys.
  induction d as [|[k' v'] rest IH]; intros k v H; simpl in *; [discriminate|].
  destruct (String.eqb k' k); simpl; auto.
  now rewrite IH.
Qed.

Lemma lookup_In : forall d k v, Dict.lookup d k = Some v -> In (k, v) d.
Proof.
  induction d as [|[k' v'] rest IH]; intros k v H; simpl in *; [discriminate|].
  destruct (String.eqb_spec k' k) as [->|Hk].
  - injection H as ->. now left.
  - right; auto.
Qed.

Lemma lookup_None_notin : forall d k,
  Dict.lookup d k = None -> ~ In k (Dict.keys d).
Proof.
  induction d as [|[k' v'] rest IH]; intros k H; simpl in *; auto.
  destruct (String.eqb_spec k' k) as [->|Hk]; [discriminate|].
  intros [E|E]; [congruence | now apply (IH k)].
Qed.

Lemma notin_lookup_None : forall d k,
  ~ In k (Dict.keys d) -> Dict.lookup d k = None.
Proof.
  induction d as [|[k' v'] rest IH]; intros k H; simpl in *; auto.
  destruct (String.eqb_spec k' k) as [->|Hk]; [tauto|].
  apply IH. tauto.
Qed.

Lemma keys_set : forall d k v,
  Dict.keys (Dict.set d k v)
  = if Dict.mem d k then Dict.keys d else (Dict.keys d ++ [k])%list.
Proof.
  intros d k v. destruct (Dict.mem d k) eqn:E.
  - now apply keys_set_present.
  - unfold Dict.mem in E.
    destruct (Dict.lookup d k) eqn:El; [discriminate|].
    rewrite (set_fresh _ _ _ El). unfold Dict.keys. now rewrite map_app.
Qed.

(** Assignment and deletion keep the keys distinct. *)
Lemma NoDup_set : forall d k v,
  NoDup (Dict.keys d) -> NoDup (Dict.keys (Dict.set d k v)).
Proof.
  intros d k v H. rewrite keys_set.
  destruct (Dict.mem d k) eqn:E; [exact H|].
  unfold Dict.mem in E.
  destruct (Dict.lookup d k) eqn:El; [discriminate|].
  apply NoDup_rev in H. rewrite <- (rev_involutive (_ ++ _)).
  apply NoDup_rev. rewrite rev_app_distr. simpl. constructor; [|exact H].
  rewrite <- in_rev. now apply lookup_None_notin.
Qed.

Lemma NoDup_remove_key : forall d k,
  NoDup (Dict.keys d) -> NoDup (Dict.keys (Dict.remove d k)).
Proof.
  unfold Dict.keys, Dict.remove.
  induction d as [|[k' v'] rest IH]; intros k H; simpl; [constructor|].
  inversion H as [|? ? Hnotin Hrest]; subst.
  destruct (String.eqb k' k); simpl; [now apply IH|].
  constructor; [|now apply IH].
  intros Hin. apply Hnotin.
  apply in_map_iff in Hin. destruct Hin as (kv & Hk & Hin).
  apply filter_In in Hin. apply in_map_iff. exists kv. tauto.
Qed.

(** ** Running statements *)

Ltac run :=
  unfold bind, ret, raise, lift, try_except, read_stock, bind_stock,
    logging, datetime_now; simpl.

(** ** [add_item] and [get_qty] *)

Lemma mem_set : forall d k k' v,
  Dict.mem d k' = true -> Dict.mem (Dict.set d k v) k' = true.
Proof.
  intros d k k' v H. unfold Dict.mem in *.
  destruct (String.eqb_spec k k') as [->|Hne].
  - now rewrite lookup_set_same.
  - rewrite lookup_set_other by congruence. exact H.
Qed.

(** The quantity an [int] argument stands for. *)
Lemma isinstance_int_of : forall qty,
  isinstance_int qty = true -> exists n, int_of qty = Some n.
Proof. intros [|[|]| | | |] H; try discriminate H; simpl; eauto. Qed.

(** ** Decimal text *)

Lemma int_str_fits : forall z, int_fits z -> int_str z = Ok (string_of_Z z).
Proof.
  intros z H. unfold int_str.
  now rewrite (proj2 (Nat.leb_le _ _) H).
Qed.

Lemma int_str_too_long : forall z,
  ~ int_fits z -> int_str z = Raise ValueError.
Proof.
  intros z H. unfold int_str.
  destruct (Nat.leb_spec (int_digits z) int_max_str_digits) as [Hle|Hgt];
    [contradiction | reflexivity].
Qed.

(** The decimal digits of a positive number start with a nonzero digit. *)
Lemma to_uint_head : forall p,
  Pos.to_uint p <> Decimal.Nil /\ forall d, Pos.to_uint p <> Decimal.D0 d.
Proof.
  intros p. split; [apply DecimalPos.Unsigned.to_uint_nonnil|].
  intros d Hd.
  assert (Hn : Decimal.unorm (Pos.to_uint p) = Pos.to_uint p).
  { rewrite <- DecimalPos.Unsigned.to_of, DecimalPos.Unsigned.of_to.
    reflexivity. }
  unfold Decimal.unorm in Hn.
  destruct (Decimal.nzhead (Pos.to_uint p)) eqn:E;
    try (rewrite <- Hn in Hd; discriminate Hd).
  - apply (DecimalPos.Unsigned.to_uint_nonzero p). now rewrite <- Hn.
  - exact (DecimalFacts.nzhead_nonzero _ _ E).
Qed.

Lemma length_string_of_uint : forall d,
  String.length (NilEmpty.string_of_uint d) = Decimal.nb_digits d.
Proof. induction d; simpl; congruence. Qed.

Lemma string_of_uint_nonnil : forall d,
  d <> Decimal.Nil ->
  NilZero.string_of_uint d = NilEmpty.string_of_uint d.
Proof. intros d H. destruct d; [congruence | reflexivity ..]. Qed.

(** The digits [int_digits] counts are those of the absolute value. *)
Lemma int_digits_pos : forall p,
  int_digits (Zpos p) = Decimal.nb_digits (Pos.to_uint p).
Proof.
  intros p. unfold int_digits, string_of_Z. simpl Z.to_int.
  unfold NilZero.string_of_int.
  rewrite (string_of_uint_nonnil _ (DecimalPos.Unsigned.to_uint_nonnil p)).
  rewrite <- length_string_of_uint.
  destruct (Pos.to_uint p); reflexivity.
Qed.

Lemma int_digits_neg : forall p,
  int_digits (Zneg p) = Decimal.nb_digits (Pos.to_uint p).
Proof.
  intros p. unfold int_digits, string_of_Z. simpl Z.to_int.
  unfold NilZero.string_of_int.
  rewrite (string_of_uint_nonnil _ (DecimalPos.Unsigned.to_uint_nonnil p)).
  rewrite <- length_string_of_uint. reflexivity.
Qed.

Lemma usize_nb_digits : forall d,
  DecimalPos.Unsigned.usize d = N.of_nat (Decimal.nb_digits d).
Proof.
  induction d; simpl Decimal.nb_digits; simpl DecimalPos.Unsigned.usize;
    rewrite ?IHd, ?Nat2N.inj_succ; reflexivity.
Qed.

Lemma of_lu_bound : forall d,
  (DecimalPos.Unsigned.of_lu d < 10 ^ DecimalPos.Unsigned.usize d)%N.
Proof.
  induction d;
    cbn [DecimalPos.Unsigned.of_lu DecimalPos.Unsigned.usize];
    rewrite ?N.pow_succ_r'; lia.
Qed.

(** A number of [n] digits lies from [10 ^ (n - 1)] up to [10 ^ n],
    the latter excluded. *)
Lemma digits_bounds : forall p,
  (10 ^ N.of_nat (pred (Decimal.nb_digits (Pos.to_uint p))) <= Npos p
   < 10 ^ N.of_nat (Decimal.nb_digits (Pos.to_uint p)))%N.
Proof.
  intros p. split.
  - destruct (to_uint_head p) as [Hnil H0].
    rewrite <- (DecimalPos.Unsigned.of_to p).
    rewrite DecimalPos.Unsigned.of_uint_alt.
    destruct (Pos.to_uint p) as [|d|d|d|d|d|d|d|d|d|d];
      try congruence; try (exfalso; eapply H0; reflexivity);
      unfold Decimal.rev; simpl Decimal.revapp;
      rewrite DecimalPos.Unsigned.of_lu_revapp;
      cbn [DecimalPos.Unsigned.of_lu Decimal.nb_digits pred];
      rewrite usize_nb_digits;
      generalize (10 ^ N.of_nat (Decimal.nb_digits d))%N; intros m; lia.
  - rewrite <- (DecimalPos.Unsigned.of_to p) at 1.
    rewrite DecimalPos.Unsigned.of_uint_alt.
    rewrite <- (DecimalFacts.nb_digits_rev (Pos.to_uint p)).
    rewrite <- usize_nb_digits. apply of_lu_bound.
Qed.

Lemma digits_fit_iff : forall p n,
  (Decimal.nb_digits (Pos.to_uint p) <= n)%nat <->
  Zpos p < 10 ^ Z.of_nat n.
Proof.
  intros p n. destruct (digits_bounds p) as [Hlow Hhigh].
  apply N2Z.inj_le in Hlow. apply N2Z.inj_lt in Hhigh.
  rewrite N2Z.inj_pow, nat_N_Z in Hlow, Hhigh.
  change (Z.of_N 10) with 10 in Hlow, Hhigh.
  change (Z.of_N (N.pos p)) with (Z.pos p) in Hlow, Hhigh.
  split; intros H.
  - eapply Z.lt_le_trans; [exact Hhigh|].
    apply Z.pow_le_mono_r; lia.
  - destruct (Nat.le_gt_cases (Decimal.nb_digits (Pos.to_uint p)) n)
      as [Hle|Hgt]; [exact Hle | exfalso].
    assert (Hpow : 10 ^ Z.of_nat n
                   <= 10 ^ Z.of_nat (pred (Decimal.nb_digits (Pos.to_uint p)))).
    { apply Z.pow_le_mono_r; lia. }
    lia.
Qed.

(** An integer has a decimal text exactly when its absolute value is below
    10 to the power [int_max_str_digits]. *)
Lemma int_fits_iff : forall z,
  int_fits z <-> Z.abs z < 10 ^ Z.of_nat int_max_str_digits.
Proof.
  intros z. unfold int_fits. destruct z as [|p|p].
  - split; intros _.
    + apply Z.pow_pos_nonneg; lia.
    + apply (proj1 (Nat.leb_le _ _)). reflexivity.
  - rewrite int_digits_pos. apply digits_fit_iff.
  - rewrite int_digits_neg. apply digits_fit_iff.
Qed.

Lemma int_fits_dec : forall z, int_fits z \/ ~ int_fits z.
Proof.
  intros z. unfold int_fits.
  destruct (Nat.leb_spec (int_digits z) int_max_str_digits); [left | right];
    lia.
Qed.

(** [add_item] on a mapping, step by step, when the stored quantity (0 for
    an absent name) and the argument are integers: the mapping is updated,
    then the text of the quantity decides between the normal return and the
    exception. *)
Lemma add_item_run : forall w d name qty logs q0 n,
  STOCK_DATA w = VDict d ->
  int_of (match Dict.lookup d name with Some v => v | None => VInt 0 end)
    = Some q0 ->
  isinstance_int qty = true ->
  int_of qty = Some n ->
  add_item (VStr name) qty logs w =
    match py_str qty with
    | Ok shown =>
        (Ok ((match logs with None => [] | Some l => l end)
             ++ [added_entry (now w) shown name])%list,
         with_log (with_stock w (VDict (Dict.set d name (VInt (q0 + n)))))
           (log w ++ [mkLog INFO (Template "Added %d of %s")
                        [ArgValue qty; ArgValue (VStr name)]]))
    | Raise e =>
        (Raise e, with_stock w (VDict (Dict.set d name (VInt (q0 + n)))))
    end.
Proof.
  intros w d name qty logs q0 n Hd Hq0 Hq Hn.
  unfold add_item; rewrite Hq; run. rewrite Hd; simpl.
  unfold py_add. rewrite Hq0, Hn. simpl.
  destruct (py_str qty); reflexivity.
Qed.

(** The same for an [int] that is no [bool]. *)
Lemma add_item_int : forall w d name qty logs q0,
  STOCK_DATA w = VDict d ->
  int_of (match Dict.lookup d name with Some v => v | None => VInt 0 end)
    = Some q0 ->
  exists r w',
    add_item (VStr name) (VInt qty) logs w = (r, w') /\
    STOCK_DATA w' = VDict (Dict.set d name (VInt (q0 + qty))) /\
    disk w' = disk w /\
    (int_fits qty ->
     r = Ok ((match logs with None => [] | Some l => l end)
             ++ [added_entry (now w) (string_of_Z qty) name])%list /\
     log w' = (log w ++ [mkLog INFO (Template "Added %d of %s")
                           [ArgValue (VInt qty); ArgValue (VStr name)]])%list) /\
    (~ int_fits qty -> r = Raise ValueError /\ log w' = log w).
Proof.
  intros w d name qty logs q0 Hd Hq0.
  rewrite (add_item_run w d name (VInt qty) logs q0 qty Hd Hq0 eq_refl eq_refl).
  change (py_str (VInt qty)) with (int_str qty).
  destruct (int_fits_dec qty) as [Hf|Hf].
  - rewrite (int_str_fits _ Hf). eexists _, _. split; [reflexivity|].
    repeat split; try reflexivity; contradiction.
  - rewrite (int_str_too_long _ Hf). eexists _, _. split; [reflexivity|].
    repeat split; try reflexivity; contradiction.
Qed.

(** C3: for a text name and an integer [qty > 0], [add_item name qty] raises
    what [get_qty name] returns by exactly [qty]; a name that was absent
    counts as 0 before and is an entry of the mapping afterwards.  The call
    returns when [qty] has a decimal text and raises [ValueError] when it
    has none, after the mapping is updated. *)
Theorem add_item_increases_quantity :
  forall w d name qty q0 logs,
    STOCK_DATA w = VDict d ->
    0 < qty ->
    get_qty (VStr name) w = (Ok (VInt q0), w) ->
    exists r w',
      add_item (VStr name) (VInt qty) logs w = (r, w') /\
      (int_fits qty -> exists logs', r = Ok logs') /\
      (~ int_fits qty -> r = Raise ValueError) /\
      get_qty (VStr name) w' = (Ok (VInt (q0 + qty)), w') /\
      (Dict.lookup d name = None ->
       q0 = 0 /\
       exists d', STOCK_DATA w' = VDict d' /\
                  Dict.lookup d' name = Some (VInt qty) /\
                  Dict.keys d' = (Dict.keys d ++ [name])%list).
Proof.
  intros w d name qty q0 logs Hd Hpos Hget.
  assert (Hq : match Dict.lookup d name with Some v => v | None => VInt 0 end
               = VInt q0).
  { revert Hget. unfold get_qty; run. rewrite Hd; simpl. congruence. }
  destruct (add_item_int w d name qty logs q0 Hd)
    as (r & w' & Hrun & Hs & _ & Hfit & Hlong).
  { now rewrite Hq. }
  exists r, w'. split; [exact Hrun|].
  split; [intros Hf; eexists; exact (proj1 (Hfit Hf))|].
  split; [intros Hf; exact (proj1 (Hlong Hf))|].
  split.
  - unfold get_qty; run. rewrite Hs; simpl. now rewrite lookup_set_same.
  - intros Habs. rewrite Habs in Hq. injection Hq as <-. split; [reflexivity|].
    eexists; split; [exact Hs|]. split.
    + apply lookup_set_same.
    + rewrite (set_fresh _ _ _ Habs). unfold Dict.keys. now rewrite map_app.
Qed.

Lemma add_item_increases_quantity_witness :
  exists r w',
    add_item (VStr "apple") (VInt 4) None
      (fresh_world (VDict [("apple", VInt 3)]) "t") = (r, w') /\
    (int_fits 4 -> exists logs', r = Ok logs') /\
    (~ int_fits 4 -> r = Raise ValueError) /\
    get_qty (VStr "apple") w' = (Ok (VInt (3 + 4)), w').
Proof.
  destruct (add_item_increases_quantity
              (fresh_world (VDict [("apple", VInt 3)]) "t")
              [("apple", VInt 3)] "apple" 4 3 None
              eq_refl ltac:(lia) eq_refl)
    as (r & w' & Hrun & Hfit & Hlong & Hget & _).
  exists r, w'. repeat split; assumption.
Defined.

(** ** [remove_item] *)

(** What [remove_item] leaves behind for an item present with an integer
    quantity: one world, with the entry lowered or deleted and one INFO
    record. *)
Lemma remove_item_present : forall w d name qty q0,
  STOCK_DATA w = VDict d ->
  Dict.lookup d name = Some (VInt q0) ->
  remove_item (VStr name) (VInt qty) w =
    (Ok tt,
     with_log
       (with_stock w
          (VDict (if q0 - qty <=? 0 then Dict.remove d name
                  else Dict.set d name (VInt (q0 - qty)))))
       (log w ++ [mkLog INFO (Template "Removed %d of %s")
                    [ArgValue (VInt qty); ArgValue (VStr name)]])).
Proof.
  intros w d name qty q0 Hd Hl.
  unfold remove_item; run. rewrite Hd; simpl.
  unfold Dict.mem at 1. rewrite Hl; simpl.
  rewrite lookup_set_same; simpl.
  unfold py_le_int; simpl.
  destruct (q0 - qty <=? 0); simpl.
  - unfold Dict.mem. rewrite lookup_set_same; simpl.
    now rewrite remove_set_same.
  - reflexivity.
Qed.

(** C4: for an item present with an integer quantity, [remove_item name qty]
    lowers the stored quantity by [qty]; when the result is at most 0 the
    entry is deleted, [get_qty name] then returns 0 and the name is no
    longer a key of the mapping. *)
Theorem remove_item_decrements_or_deletes :
  forall w d name qty q0,
    STOCK_DATA w = VDict d ->
    Dict.lookup d name = Some (VInt q0) ->
    exists w',
      remove_item (VStr name) (VInt qty) w = (Ok tt, w') /\
      (0 < q0 - qty ->
       STOCK_DATA w' = VDict (Dict.set d name (VInt (q0 - qty))) /\
       get_qty (VStr name) w' = (Ok (VInt (q0 - qty)), w')) /\
      (q0 - qty <= 0 ->
       STOCK_DATA w' = VDict (Dict.remove d name) /\
       Dict.mem (Dict.remove d name) name = false /\
       ~ In name (Dict.keys (Dict.remove d name)) /\
       get_qty (VStr name) w' = (Ok (VInt 0), w')).
Proof.
  intros w d name qty q0 Hd Hl.
  eexists. split; [apply (remove_item_present w d name qty q0 Hd Hl)|].
  destruct (Z.leb_spec (q0 - qty) 0) as [Hle|Hgt]; split; intros H; try lia.
  - repeat split.
    + unfold Dict.mem. now rewrite lookup_remove_same.
    + apply lookup_None_notin, lookup_remove_same.
    + unfold get_qty; run. now rewrite lookup_remove_same.
  - split; [reflexivity|].
    unfold get_qty; run. now rewrite lookup_set_same.
Qed.

Lemma remove_item_decrements_or_deletes_witness :
  exists w',
    remove_item (VStr "apple") (VInt 3)
      (fresh_world (VDict [("apple", VInt 10)]) "t") = (Ok tt, w') /\
    (0 < 10 - 3 ->
     STOCK_DATA w' = VDict (Dict.set [("apple", VInt 10)] "apple" (VInt (10 - 3))) /\
     get_qty (VStr "apple") w' = (Ok (VInt (10 - 3)), w')) /\
    (10 - 3 <= 0 ->
     STOCK_DATA w' = VDict (Dict.remove [("apple", VInt 10)] "apple") /\
     Dict.mem (Dict.remove [("apple", VInt 10)] "apple") "apple" = false /\
     ~ In "apple" (Dict.keys (Dict.remove [("apple", VInt 10)] "apple")) /\
     get_qty (VStr "apple") w' = (Ok (VInt 0), w')).
Proof.
  apply (remove_item_decrements_or_deletes
           (fresh_world (VDict [("apple", VInt 10)]) "t")
           [("apple", VInt 10)] "apple" 3 10); reflexivity.
Defined.

(** C6: for a name absent from the mapping, [remove_item name qty] changes
    neither the mapping nor the disk and hands [logging] one record, at level
    WARNING, carrying the [KeyError]. *)
Theorem remove_item_absent_warns :
  forall w d name qty,
    STOCK_DATA w = VDict d ->
    Dict.lookup d name = None ->
    remove_item (VStr name) (VInt qty) w =
      (Ok tt,
       with_log w
         (log w ++ [mkLog WARNING
                      (Exception (KeyError ("Item '" ++ name ++ "' not found")))
                      []])).
Proof.
  intros w d name qty Hd Hl.
  unfold remove_item; run. rewrite Hd; simpl.
  unfold Dict.mem. rewrite Hl; simpl. reflexivity.
Qed.

Lemma remove_item_absent_warns_witness :
  remove_item (VStr "orange") (VInt 1)
    (fresh_world (VDict [("apple", VInt 7)]) "t") =
    (Ok tt,
     with_log (fresh_world (VDict [("apple", VInt 7)]) "t")
       (log (fresh_world (VDict [("apple", VInt 7)]) "t")
        ++ [mkLog WARNING
              (Exception (KeyError ("Item '" ++ "orange" ++ "' not found")))
              []])).
Proof.
  apply (remove_item_absent_warns
           (fresh_world (VDict [("apple", VInt 7)]) "t")
           [("apple", VInt 7)] "orange" 1); reflexivity.
Defined.

(** ** Type validation *)

(** C7: when the name is not a [str] or the quantity is not an [int],
    [add_item] hands [logging] one ERROR record and changes neither the
    mapping nor the disk, and so does [remove_item]. *)
Theorem invalid_types_rejected :
  forall w item qty logs,
    isinstance_str item = false \/ isinstance_int qty = false ->
    (exists logs' w',
       add_item item qty logs w = (Ok logs', w') /\
       STOCK_DATA w' = STOCK_DATA w /\
       disk w' = disk w /\
       log w' =
         (log w ++ [mkLog ERROR
                     (Template "Invalid item or quantity type for item '%s'")
                     [ArgValue item]])%list) /\
    (exists w',
       remove_item item qty w = (Ok tt, w') /\
       STOCK_DATA w' = STOCK_DATA w /\
       disk w' = disk w /\
       log w' =
         (log w ++ [mkLog ERROR
                     (Template "Invalid item or quantity type for removal.")
                     []])%list).
Proof.
  intros w item qty logs H.
  assert (Hadd : add_item item qty logs w =
                 (Ok (match logs with None => [] | Some l => l end),
                  with_log w
                    (log w ++ [mkLog ERROR
                      (Template "Invalid item or quantity type for item '%s'")
                      [ArgValue item]]))).
  { unfold add_item.
    destruct H as [H|H].
    - destruct item; try discriminate H; reflexivity.
    - rewrite H. destruct item; reflexivity. }
  assert (Hrem : remove_item item qty w =
                 (Ok tt,
                  with_log w
                    (log w ++ [mkLog ERROR
                      (Template "Invalid item or quantity type for removal.")
                      []]))).
  { unfold remove_item.
    destruct H as [H|H].
    - destruct item; try discriminate H; reflexivity.
    - rewrite H. destruct item; reflexivity. }
  split.
  - eexists _, _. split; [exact Hadd|]. repeat split.
  - eexists. split; [exact Hrem|]. repeat split.
Qed.

Lemma invalid_types_rejected_witness :
  (exists logs' w',
     add_item (VInt 123) (VStr "ten") None
       (fresh_world (VDict [("apple", VInt 10)]) "t") = (Ok logs', w') /\
     STOCK_DATA w' = STOCK_DATA (fresh_world (VDict [("apple", VInt 10)]) "t") /\
     disk w' = disk (fresh_world (VDict [("apple", VInt 10)]) "t") /\
     log w' =
       (log (fresh_world (VDict [("apple", VInt 10)]) "t")
        ++ [mkLog ERROR
              (Template "Invalid item or quantity type for item '%s'")
              [ArgValue (VInt 123)]])%list) /\
  (exists w',
     remove_item (VInt 123) (VStr "ten")
       (fresh_world (VDict [("apple", VInt 10)]) "t") = (Ok tt, w') /\
     STOCK_DATA w' = STOCK_DATA (fresh_world (VDict [("apple", VInt 10)]) "t") /\
     disk w' = disk (fresh_world (VDict [("apple", VInt 10)]) "t") /\
     log w' =
       (log (fresh_world (VDict [("apple", VInt 10)]) "t")
        ++ [mkLog ERROR
              (Template "Invalid item or quantity type for removal.")
              []])%list).
Proof.
  apply (invalid_types_rejected
           (fresh_world (VDict [("apple", VInt 10)]) "t")
           (VInt 123) (VStr "ten") None).
  left; reflexivity.
Defined.

(** ** [check_low_items] *)

Lemma low_items_int_valued : forall d threshold,
  int_valued d -> low_items d threshold = Ok (names_below d threshold).
Proof.
  unfold names_below, Dict.keys.
  induction d as [|[k v] rest IH]; intros threshold H; simpl; auto.
  inversion H as [|? ? [z Hz] Hrest]; subst. simpl in Hz; subst v.
  unfold py_lt_int; simpl. rewrite (IH _ Hrest).
  now destruct (z <? threshold).
Qed.

(** C5: on a mapping with integer quantities, [check_low_items threshold]
    returns [names_below]: the names whose quantity is strictly below
    [threshold], in the order of the mapping, and nothing else. *)
Theorem check_low_items_exact :
  forall w d threshold,
    STOCK_DATA w = VDict d ->
    int_valued d ->
    check_low_items threshold w = (Ok (names_below d threshold), w) /\
    (forall name,
       In name (names_below d threshold) <->
       exists q, In (name, VInt q) d /\ q < threshold).
Proof.
  intros w d threshold Hd Hint. split.
  - unfold check_low_items; run. rewrite Hd; simpl.
    now rewrite (low_items_int_valued _ _ Hint).
  - intros name. unfold names_below, Dict.keys. rewrite in_map_iff. split.
    + intros ([k v] & Hk & Hin). simpl in Hk; subst k.
      apply filter_In in Hin. destruct Hin as [Hin Hlt].
      destruct (proj1 (Forall_forall _ _) Hint _ Hin) as [z Hz]. simpl in Hz; subst v. simpl in Hlt.
      exists z. split; [exact Hin | now apply Z.ltb_lt].
    + intros (q & Hin & Hlt). exists (name, VInt q). split; [reflexivity|].
      apply filter_In. split; [exact Hin|]. simpl. now apply Z.ltb_lt.
Qed.

Lemma check_low_items_exact_witness :
  check_low_items 5
    (fresh_world (VDict [("apple", VInt 3); ("banana", VInt 10)]) "t")
  = (Ok ["apple"],
     fresh_world (VDict [("apple", VInt 3); ("banana", VInt 10)]) "t").
Proof.
  apply (check_low_items_exact
           (fresh_world (VDict [("apple", VInt 3); ("banana", VInt 10)]) "t")
           [("apple", VInt 3); ("banana", VInt 10)] 5).
  - reflexivity.
  - repeat constructor; simpl; eauto.
Defined.

(** ** [load_data] *)

(** C8: when no file exists at the path (the path itself is missing, or a
    directory on the way to it is), [load_data] returns without raising,
    binds [STOCK_DATA] to an empty mapping and hands [logging] one WARNING
    record. *)
Theorem load_data_missing_file :
  forall json w path,
    disk w path = Absent \/ disk w path = Blocked FileNotFoundError ->
    load_data json path w =
      (Ok tt,
       with_stock
         (with_log w
            (log w ++ [mkLog WARNING
                         (Template
                            "Inventory file not found, starting with empty data.")
                         []]))
         (VDict [])).
Proof.
  intros json w path [H|H];
    unfold load_data, open_read; run; now rewrite H.
Qed.

Lemma load_data_missing_file_witness :
  load_data PyJson.module INVENTORY_FILE
    (fresh_world (VDict [("apple", VInt 7)]) "t") =
    (Ok tt,
     with_stock
       (with_log (fresh_world (VDict [("apple", VInt 7)]) "t")
          (log (fresh_world (VDict [("apple", VInt 7)]) "t")
           ++ [mkLog WARNING
                 (Template
                    "Inventory file not found, starting with empty data.")
                 []]))
       (VDict [])).
Proof.
  apply (load_data_missing_file PyJson.module
           (fresh_world (VDict [("apple", VInt 7)]) "t") INVENTORY_FILE).
  left; reflexivity.
Defined.

(** No handler of [load_data] catches anything but [FileNotFoundError]:
    every other exception of [open], of reading or of [json.load] leaves
    the function, with the mapping as it was and nothing logged. *)
Lemma load_data_propagates : forall json w path e,
  is_FileNotFoundError e = false ->
  open_read path w = (Raise e, w) \/
  (exists text, disk w path = File text /\ json_load json text = Raise e) ->
  load_data json path w = (Raise e, w).
Proof.
  intros json w path e He [H|(text & Hf & Hj)].
  - unfold load_data; run. rewrite H. now rewrite He.
  - unfold load_data, open_read; run. rewrite Hf; simpl. rewrite Hj.
    now rewrite He.
Qed.

(** C9: when the file exists and its text is not a JSON document, the
    [JSONDecodeError] of [json.load] leaves [load_data] as a raised
    exception: no handler catches it, nothing is logged and the mapping is
    not rebound. *)
Theorem load_data_malformed_propagates :
  forall json w path text,
    disk w path = File text ->
    json_load json text = Raise JSONDecodeError ->
    load_data json path w = (Raise JSONDecodeError, w).
Proof.
  intros json w path text Hf Hj.
  apply load_data_propagates; [reflexivity|].
  right. now exists text.
Qed.

Lemma load_data_malformed_propagates_witness :
  load_data PyJson.module INVENTORY_FILE
    (mkWorld (VDict [("apple", VInt 7)])
       (update (fun _ => Absent) INVENTORY_FILE (File "{apple: 7}")) [] "t")
  = (Raise JSONDecodeError,
     mkWorld (VDict [("apple", VInt 7)])
       (update (fun _ => Absent) INVENTORY_FILE (File "{apple: 7}")) [] "t").
Proof.
  apply (load_data_malformed_propagates PyJson.module
           (mkWorld (VDict [("apple", VInt 7)])
              (update (fun _ => Absent) INVENTORY_FILE (File "{apple: 7}"))
              [] "t")
           INVENTORY_FILE "{apple: 7}"); reflexivity.
Defined.

(** ** Quantities below zero *)

(** With [banana] at -2, as [add_item("banana", -2)] leaves it,
    [remove_item("banana", -1)] reaches -1 and deletes the entry. *)
Lemma negative_removal_can_delete : ~ negative_removal_always_adds.
Proof.
  intros H.
  destruct (H (fresh_world (VDict [("banana", VInt (-2))]) "t")
              [("banana", VInt (-2))] "banana" (-1) (-2)
              eq_refl eq_refl eq_refl) as (w' & d' & Hrun & Hs & Hl).
  vm_compute in Hrun. injection Hrun as <-.
  simpl in Hs. injection Hs as <-. discriminate Hl.
Qed.

(** C10, amended: a negative removal from a present item whose quantity
    stays above 0 keeps the entry in its place and raises its quantity by
    [|qty|], leaving the mapping a call of [add_item name |qty|] leaves; no
    sign test stands in the way. *)
Theorem negative_removal_adds :
  forall w d name qty q0,
    STOCK_DATA w = VDict d ->
    Dict.lookup d name = Some (VInt q0) ->
    qty < 0 ->
    0 < q0 + Z.abs qty ->
    exists w',
      remove_item (VStr name) (VInt qty) w = (Ok tt, w') /\
      STOCK_DATA w' = VDict (Dict.set d name (VInt (q0 + Z.abs qty))) /\
      get_qty (VStr name) w' = (Ok (VInt (q0 + Z.abs qty)), w') /\
      Dict.keys (Dict.set d name (VInt (q0 + Z.abs qty))) = Dict.keys d /\
      STOCK_DATA (snd (add_item (VStr name) (VInt (Z.abs qty)) None w))
      = STOCK_DATA w'.
Proof.
  intros w d name qty q0 Hd Hl Hneg Hpos.
  destruct (add_item_int w d name (Z.abs qty) None q0 Hd)
    as (r & w2 & Hadd & Hs2 & _).
  { now rewrite Hl. }
  eexists. split; [apply (remove_item_present w d name qty q0 Hd Hl)|].
  replace (q0 - qty) with (q0 + Z.abs qty) by lia.
  destruct (Z.leb_spec (q0 + Z.abs qty) 0) as [Hle|_]; [lia|].
  cbv iota. split; [reflexivity|]. split; [|split].
  - unfold get_qty; run. now rewrite lookup_set_same.
  - apply keys_set_present. unfold Dict.mem. now rewrite Hl.
  - rewrite Hadd. exact Hs2.
Qed.

Lemma negative_removal_adds_witness :
  exists w',
    remove_item (VStr "apple") (VInt (-3))
      (fresh_world (VDict [("apple", VInt 7)]) "t") = (Ok tt, w') /\
    STOCK_DATA w' = VDict [("apple", VInt 10)].
Proof.
  destruct (negative_removal_adds
              (fresh_world (VDict [("apple", VInt 7)]) "t")
              [("apple", VInt 7)] "apple" (-3) 7
              eq_refl eq_refl eq_refl eq_refl) as (w' & Hrun & Hs & _).
  exists w'. split; [exact Hrun | exact Hs].
Defined.

(** ** The invariant on quantities *)

Lemma positive_set : forall d k z,
  positive_stock d -> 0 < z -> positive_stock (Dict.set d k (VInt z)).
Proof.
  unfold positive_stock.
  induction d as [|[k' v'] rest IH]; intros k z H Hz; simpl.
  - repeat constructor. simpl; eauto.
  - inversion H; subst.
    destruct (String.eqb k' k); constructor; simpl; eauto.
Qed.

Lemma positive_remove : forall d k,
  positive_stock d -> positive_stock (Dict.remove d k).
Proof.
  unfold positive_stock, Dict.remove. intros d k H.
  rewrite Forall_forall in *. intros kv Hin.
  apply filter_In in Hin. now apply H.
Qed.

Lemma positive_lookup : forall d k v,
  positive_stock d -> Dict.lookup d k = Some v -> exists z, v = VInt z /\ 0 < z.
Proof.
  intros d k v H Hl. apply lookup_In in Hl.
  unfold positive_stock in H. rewrite Forall_forall in H.
  exact (H _ Hl).
Qed.

(** X9: [remove_item] keeps the invariant, whatever its arguments: on a
    mapping whose quantities are all integers above 0 it returns without
    raising and leaves such a mapping. *)
Lemma remove_item_keeps_positive : forall w d item qty,
  STOCK_DATA w = VDict d ->
  positive_stock d ->
  exists w' d',
    remove_item item qty w = (Ok tt, w') /\
    STOCK_DATA w' = VDict d' /\ positive_stock d'.
Proof.
  intros w d item qty Hd Hpos.
  destruct item as [| | |name| |];
    try (eexists _, d; split; [reflexivity|]; split; [exact Hd | exact Hpos]).
  destruct (isinstance_int qty) eqn:Hq;
    [|eexists _, d; split;
      [unfold remove_item; rewrite Hq; reflexivity|];
      split; [exact Hd | exact Hpos]].
  assert (Hn : exists n, int_of qty = Some n).
  { destruct qty as [|[|]| | | |]; try discriminate Hq; simpl; eauto. }
  destruct Hn as [n Hn].
  unfold remove_item; rewrite Hq; run. rewrite Hd; simpl.
  unfold Dict.mem at 1.
  destruct (Dict.lookup d name) as [v|] eqn:Hl; simpl.
  - destruct (positive_lookup _ _ _ Hpos Hl) as (z & -> & Hz).
    unfold py_sub. rewrite Hn; simpl.
    rewrite lookup_set_same; simpl. unfold py_le_int; simpl.
    destruct (Z.leb_spec (z - n) 0) as [Hle|Hgt]; simpl.
    + unfold Dict.mem. rewrite lookup_set_same; simpl.
      eexists _, _. split; [reflexivity|]. split; [reflexivity|].
      rewrite remove_set_same. now apply positive_remove.
    + eexists _, _. split; [reflexivity|]. split; [reflexivity|].
      now apply positive_set.
  - eexists _, d. split; [reflexivity|]. split; [exact Hd | exact Hpos].
Qed.

(** X10: [add_item] keeps the invariant when the quantity added is above 0:
    on a mapping whose quantities are all integers above 0 it leaves such a
    mapping, whether it returns (the quantity has a decimal text) or raises
    [ValueError] (it has none). *)
Lemma add_item_keeps_positive : forall w d name qty logs,
  STOCK_DATA w = VDict d ->
  positive_stock d ->
  0 < qty ->
  exists r w' d',
    add_item (VStr name) (VInt qty) logs w = (r, w') /\
    STOCK_DATA w' = VDict d' /\ positive_stock d' /\
    (int_fits qty -> exists logs', r = Ok logs') /\
    (~ int_fits qty -> r = Raise ValueError).
Proof.
  intros w d name qty logs Hd Hpos Hq.
  assert (H0 : exists q0, 0 <= q0 /\
                int_of (match Dict.lookup d name with
                        | Some v => v | None => VInt 0 end) = Some q0).
  { destruct (Dict.lookup d name) as [v|] eqn:Hl.
    - destruct (positive_lookup _ _ _ Hpos Hl) as (z & -> & Hz).
      exists z. split; [lia | reflexivity].
    - exists 0. split; [lia | reflexivity]. }
  destruct H0 as (q0 & Hq0 & Hint).
  destruct (add_item_int w d name qty logs q0 Hd Hint)
    as (r & w' & Hrun & Hs & _ & Hfit & Hlong).
  exists r, w', (Dict.set d name (VInt (q0 + qty))).
  split; [exact Hrun|]. split; [exact Hs|].
  split; [apply positive_set; [exact Hpos | lia]|].
  split; [intros Hf; eexists; exact (proj1 (Hfit Hf))|].
  intros Hf; exact (proj1 (Hlong Hf)).
Qed.

(** ** Stock mappings stay stock mappings *)

Lemma int_valued_set : forall d k z,
  int_valued d -> int_valued (Dict.set d k (VInt z)).
Proof.
  unfold int_valued.
  induction d as [|[k' v'] rest IH]; intros k z H; simpl.
  - repeat constructor. simpl; eauto.
  - inversion H; subst.
    destruct (String.eqb k' k); constructor; simpl; eauto.
Qed.

Lemma int_valued_remove : forall d k,
  int_valued d -> int_valued (Dict.remove d k).
Proof.
  unfold int_valued, Dict.remove. intros d k H.
  rewrite Forall_forall in *. intros kv Hin.
  apply filter_In in Hin. now apply H.
Qed.

Lemma int_valued_lookup : forall d k,
  int_valued d ->
  exists q, int_of (match Dict.lookup d k with
                    | Some v => v | None => VInt 0 end) = Some q.
Proof.
  intros d k H. destruct (Dict.lookup d k) as [v|] eqn:El.
  - apply lookup_In in El. unfold int_valued in H.
    rewrite Forall_forall in H. destruct (H _ El) as [z Hz].
    simpl in Hz; subst v. now exists z.
  - now exists 0.
Qed.

(** Whatever the arguments, on a stock mapping [remove_item] returns
    without raising and [add_item] returns or raises the [ValueError] of a
    quantity without decimal text; each leaves a stock mapping. *)
Lemma add_item_keeps_stock_mapping : forall w d item qty logs,
  STOCK_DATA w = VDict d ->
  stock_mapping d ->
  exists r w' d',
    add_item item qty logs w = (r, w') /\
    STOCK_DATA w' = VDict d' /\ stock_mapping d' /\
    ((exists logs', r = Ok logs') \/
     (r = Raise ValueError /\ exists z, qty = VInt z /\ ~ int_fits z)).
Proof.
  intros w d item qty logs Hd [Hnd Hint].
  destruct item as [| | |name| |];
    try (eexists _, _, d; split; [reflexivity|]; split;
         [exact Hd | split; [split; assumption | left; eexists; reflexivity]]).
  destruct (isinstance_int qty) eqn:Hq;
    [|eexists _, _, d; split;
      [unfold add_item; rewrite Hq; reflexivity|];
      split; [exact Hd | split; [split; assumption
                                | left; eexists; reflexivity]]].
  destruct (isinstance_int_of qty Hq) as [n Hn].
  destruct (int_valued_lookup d name Hint) as [q0 Hq0].
  rewrite (add_item_run w d name qty logs q0 n Hd Hq0 Hq Hn).
  assert (Hkeep : stock_mapping (Dict.set d name (VInt (q0 + n)))).
  { split; [now apply NoDup_set | now apply int_valued_set]. }
  destruct qty as [|b|z| | |]; try discriminate Hq.
  - destruct b; eexists _, _, _; (split; [reflexivity|]);
      (split; [reflexivity|]); (split; [exact Hkeep|]);
      left; eexists; reflexivity.
  - change (py_str (VInt z)) with (int_str z).
    destruct (int_fits_dec z) as [Hf|Hf].
    + rewrite (int_str_fits _ Hf). eexists _, _, _. split; [reflexivity|].
      split; [reflexivity|]. split; [exact Hkeep|].
      left; eexists; reflexivity.
    + rewrite (int_str_too_long _ Hf). eexists _, _, _. split; [reflexivity|].
      split; [reflexivity|]. split; [exact Hkeep|].
      right. split; [reflexivity|]. exists z. now split.
Qed.

Lemma remove_item_keeps_stock_mapping : forall w d item qty,
  STOCK_DATA w = VDict d ->
  stock_mapping d ->
  exists w' d',
    remove_item item qty w = (Ok tt, w') /\
    STOCK_DATA w' = VDict d' /\ stock_mapping d'.
Proof.
  intros w d item qty Hd [Hnd Hint].
  destruct item as [| | |name| |];
    try (eexists _, d; split; [reflexivity|]; split;
         [exact Hd | split; assumption]).
  destruct (isinstance_int qty) eqn:Hq;
    [|eexists _, d; split;
      [unfold remove_item; rewrite Hq; reflexivity|];
      split; [exact Hd | split; assumption]].
  destruct (isinstance_int_of qty Hq) as [n Hn].
  unfold remove_item; rewrite Hq; run. rewrite Hd; simpl.
  unfold Dict.mem at 1.
  destruct (Dict.lookup d name) as [v|] eqn:Hl; simpl.
  - pose proof (int_valued_lookup d name Hint) as [q0 Hq0].
    rewrite Hl in Hq0. unfold py_sub. rewrite Hq0, Hn; simpl.
    rewrite lookup_set_same; simpl. unfold py_le_int; simpl.
    destruct (q0 - n <=? 0); simpl.
    + unfold Dict.mem. rewrite lookup_set_same; simpl.
      eexists _, _. split; [reflexivity|]. split; [reflexivity|].
      rewrite remove_set_same.
      split; [now apply NoDup_remove_key | now apply int_valued_remove].
    + eexists _, _. split; [reflexivity|]. split; [reflexivity|].
      split; [now apply NoDup_set | now apply int_valued_set].
  - eexists _, d. split; [reflexivity|]. split; [exact Hd | split; assumption].
Qed.

(** C1, the scenario of the specification from an empty mapping:
    [add_item("apple", 10)], [add_item("banana", -2)],
    [remove_item("apple", 3)].  The second call stores [banana] with
    quantity -2, and the entry is still there at the end: [add_item] has no
    counterpart of the deletion [remove_item] performs at 0 and below. *)
Theorem scenario_keeps_negative_banana :
  forall t,
    exists l1 w1 l2 w2 w3,
      add_item (VStr "apple") (VInt 10) None (fresh_world (VDict []) t)
        = (Ok l1, w1) /\
      add_item (VStr "banana") (VInt (-2)) None w1 = (Ok l2, w2) /\
      STOCK_DATA w2 = VDict [("apple", VInt 10); ("banana", VInt (-2))] /\
      remove_item (VStr "apple") (VInt 3) w2 = (Ok tt, w3) /\
      STOCK_DATA w3 = VDict [("apple", VInt 7); ("banana", VInt (-2))] /\
      get_qty (VStr "apple") w3 = (Ok (VInt 7), w3) /\
      get_qty (VStr "banana") w3 = (Ok (VInt (-2)), w3) /\
      ~ positive_stock [("apple", VInt 7); ("banana", VInt (-2))].
Proof.
  intros t. do 5 eexists.
  split; [cbv; reflexivity|]. split; [cbv; reflexivity|].
  split; [reflexivity|]. split; [cbv; reflexivity|].
  split; [reflexivity|]. split; [reflexivity|]. split; [reflexivity|].
  intros H. inversion H as [|? ? _ H1]; subst.
  inversion H1 as [|? ? (z & Hz & Hzpos) _]; subst.
  simpl in Hz. injection Hz as <-. lia.
Qed.

(** ** The JSON text of a stock mapping reads back *)

Module PyJsonFacts.
Import PyJson.

Lemma append_assoc : forall a b c : string, (a ++ b) ++ c = a ++ (b ++ c).
Proof. induction a; intros; simpl; [reflexivity | now rewrite IHa]. Qed.

Lemma length_append : forall a b : string,
  String.length (a ++ b) = (String.length a + String.length b)%nat.
Proof. induction a; intros; simpl; [reflexivity | now rewrite IHa]. Qed.

(** *** Strings *)

(** The decoder undoes the escape of a single character. *)
Lemma scanstring_escape : forall c t,
  scanstring (escape c ++ t) = cons_char c (scanstring t).
Proof.
  intros c t.
  destruct c as [[] [] [] [] [] [] [] []]; reflexivity.
Qed.

Lemma scanstring_escape_all : forall s rest,
  scanstring (escape_all s ++ String dquote rest) = Some (Ok (s, rest)).
Proof.
  induction s as [|c s IH]; intros rest.
  - reflexivity.
  - simpl escape_all. rewrite append_assoc, scanstring_escape, IH.
    reflexivity.
Qed.

(** *** White space *)

Lemma skip_ws_spaces : forall n s, skip_ws (spaces n ++ s) = skip_ws s.
Proof. induction n; intros s; simpl; auto. Qed.

Lemma skip_ws_newline_indent : forall level s,
  skip_ws (newline_indent level ++ s) = skip_ws s.
Proof. intros. unfold newline_indent. simpl. apply skip_ws_spaces. Qed.

(** *** Integers *)

Lemma span_digits_uint : forall d rest,
  starts_digit rest = false ->
  span_digits (NilEmpty.string_of_uint d ++ rest)
  = (NilEmpty.string_of_uint d, rest).
Proof.
  induction d; intros rest H; simpl;
    try (rewrite (IHd rest H); reflexivity).
  destruct rest as [|c r]; simpl in *; [reflexivity | now rewrite H].
Qed.

Lemma match_integer_uint : forall d rest,
  d <> Decimal.Nil ->
  (forall d', d <> Decimal.D0 d') ->
  starts_digit rest = false ->
  match_integer (NilEmpty.string_of_uint d ++ rest)
  = Some (NilEmpty.string_of_uint d, rest) /\
  match_integer (String "-" (NilEmpty.string_of_uint d ++ rest))
  = Some (String "-" (NilEmpty.string_of_uint d), rest).
Proof.
  intros d rest Hnil H0 Hrest.
  destruct d; try congruence; try (exfalso; eapply H0; reflexivity);
    unfold match_integer; simpl;
    rewrite (span_digits_uint _ _ Hrest); split; reflexivity.
Qed.

Lemma match_integer_Z : forall z rest,
  starts_digit rest = false ->
  match_integer (string_of_Z z ++ rest) = Some (string_of_Z z, rest).
Proof.
  intros z rest Hrest. unfold string_of_Z.
  destruct z as [|p|p]; simpl Z.to_int.
  - reflexivity.
  - destruct (to_uint_head p) as [Hnil H0].
    unfold NilZero.string_of_int, NilZero.string_of_uint.
    destruct (Pos.to_uint p) eqn:E; try congruence;
      rewrite <- E in *;
      apply (match_integer_uint _ _ Hnil H0 Hrest).
  - destruct (to_uint_head p) as [Hnil H0].
    unfold NilZero.string_of_int, NilZero.string_of_uint.
    destruct (Pos.to_uint p) eqn:E; try congruence;
      rewrite <- E in *;
      apply (match_integer_uint _ _ Hnil H0 Hrest).
Qed.

Lemma parse_int_string_of_Z : forall z,
  int_fits z -> parse_int (string_of_Z z) = Ok z.
Proof.
  intros z Hfit. unfold parse_int.
  fold (int_digits z). rewrite (proj2 (Nat.leb_le _ _) Hfit).
  unfold string_of_Z.
  rewrite NilZero.isi.
  - simpl. now rewrite DecimalZ.of_to.
  - destruct z; simpl; try discriminate.
    intros [= E]. exact (DecimalPos.Unsigned.to_uint_nonnil _ E).
  - destruct z; simpl; try discriminate.
    intros [= E]. exact (DecimalPos.Unsigned.to_uint_nonnil _ E).
Qed.

Lemma scan_number_int : forall z rest,
  int_fits z ->
  starts_digit rest = false ->
  float_follows rest = false ->
  scan_number (string_of_Z z ++ rest) = Some (Ok (VInt z, rest)).
Proof.
  intros z rest Hfit Hd Hf. unfold scan_number.
  now rewrite (match_integer_Z _ _ Hd), Hf, (parse_int_string_of_Z _ Hfit).
Qed.

Lemma numeric_head_uint : forall d rest,
  d <> Decimal.Nil ->
  numeric_head (NilEmpty.string_of_uint d ++ rest) = true.
Proof. intros d rest H. destruct d; try congruence; reflexivity. Qed.

(** The text of an integer starts with a digit, or with a minus sign and a
    digit. *)
Lemma numeric_head_Z : forall z rest,
  numeric_head (string_of_Z z ++ rest) = true.
Proof.
  intros z rest. unfold string_of_Z.
  destruct z as [|p|p]; simpl Z.to_int; try reflexivity;
    unfold NilZero.string_of_int, NilZero.string_of_uint;
    pose proof (DecimalPos.Unsigned.to_uint_nonnil p) as Hnil;
    destruct (Pos.to_uint p) eqn:E; try congruence; reflexivity.
Qed.

Lemma scan_once_numeric : forall fuel depth s,
  numeric_head s = true ->
  scan_once (S fuel) depth s = scan_number s.
Proof.
  intros fuel depth [|c s] H; [discriminate H|].
  destruct c as [[] [] [] [] [] [] [] []]; try discriminate H;
    try reflexivity.
  destruct s as [|c' s']; [discriminate H|].
  destruct c' as [[] [] [] [] [] [] [] []]; try discriminate H;
    reflexivity.
Qed.

Lemma skip_ws_numeric : forall s, numeric_head s = true -> skip_ws s = s.
Proof.
  intros [|c s] H; [reflexivity|].
  destruct c as [[] [] [] [] [] [] [] []];
    try discriminate H; reflexivity.
Qed.

(** *** Objects *)

Lemma append_nil_r : forall a : string, a ++ "" = a.
Proof. induction a; simpl; congruence. Qed.

Lemma encode_append : forall k t,
  encode_basestring_ascii k ++ t
  = String dquote (escape_all k ++ String dquote t).
Proof.
  intros k t. unfold encode_basestring_ascii. cbn [append].
  now rewrite append_assoc.
Qed.

Lemma iterencode_int : forall z level,
  int_fits z -> iterencode (VInt z) level = yield (string_of_Z z).
Proof.
  intros z level H.
  change (iterencode (VInt z) level)
    with (match int_str z with
          | Ok t => yield t
          | Raise e => ("", Some e)
          end).
  now rewrite (int_str_fits _ H).
Qed.

(** The loop of the encoder on a mapping whose quantities have a decimal
    text: nothing stops it, and what it writes is the text of the
    members. *)
Lemma dict_loop_members : forall d first,
  int_valued d ->
  quantities_fit d ->
  d <> [] ->
  exists t,
    dict_loop (fun x => iterencode x 1) ("," ++ newline_indent 1) first d
    = (t, None) /\
    forall tail,
      t ++ (newline_indent 0 ++ "}" ++ tail)
      = (if first then "" else "," ++ newline_indent 1)
        ++ String dquote (members_text d tail).
Proof.
  induction d as [|[k v] d IH]; intros first Hint Hfit Hne; [congruence|].
  inversion Hint as [|? ? [z Hz] Hint']; subst. simpl in Hz; subst v.
  inversion Hfit as [|? ? Hz Hfit']; subst.
  specialize (Hz z eq_refl).
  cbn [dict_loop]. rewrite (iterencode_int z 1 Hz).
  destruct d as [|kv d'].
  - eexists. split; [reflexivity|]. intros tail.
    cbv [and_then yield dict_loop fst snd].
    change (members_text [(k, VInt z)] tail)
      with (escape_all k
            ++ String dquote
                 (": " ++ string_of_Z z
                  ++ newline_indent 0 ++ "}" ++ tail)).
    rewrite !append_assoc, encode_append. reflexivity.
  - destruct (IH false Hint' Hfit' ltac:(discriminate)) as (t' & Ht' & Heq).
    rewrite Ht'. eexists. split; [reflexivity|]. intros tail.
    cbv [and_then yield fst snd].
    change (members_text ((k, VInt z) :: kv :: d') tail)
      with (escape_all k
            ++ String dquote
                 (": " ++ string_of_Z z
                  ++ "," ++ newline_indent 1
                  ++ String dquote (members_text (kv :: d') tail))).
    rewrite !append_assoc, (Heq tail), !append_assoc, encode_append.
    reflexivity.
Qed.

Lemma iterencode_stock : forall d,
  int_valued d ->
  quantities_fit d ->
  d <> [] ->
  exists t,
    iterencode (VDict d) 0 = (t, None) /\
    t = "{" ++ newline_indent 1 ++ String dquote (members_text d "").
Proof.
  intros d Hint Hfit Hne.
  destruct (dict_loop_members d true Hint Hfit Hne) as (t1 & Ht1 & Heq).
  destruct d as [|kv d]; [congruence|].
  cbn [iterencode]. rewrite Ht1.
  eexists. split; [reflexivity|].
  cbv [and_then yield fst snd].
  assert (H : t1 ++ newline_indent 0 ++ "}"
              = String dquote (members_text (kv :: d) ""))
    by exact (Heq "").
  rewrite <- H. reflexivity.
Qed.

Lemma object_loop_step : forall fuel depth pairs s,
  object_loop (S fuel) depth pairs s =
  match scanstring s with
  | None => None
  | Some (Raise e) => Some (Raise e)
  | Some (Ok (key, s1)) =>
      match skip_ws s1 with
      | String c s2 =>
          if (code c =? 58)%N then
            match scan_once fuel depth (skip_ws s2) with
            | None => None
            | Some (Raise e) => Some (Raise e)
            | Some (Ok (v, s3)) =>
                match skip_ws s3 with
                | String c1 s4 =>
                    if (code c1 =? 125)%N then
                      Some (Ok (VDict (dict_of_pairs
                                         (pairs ++ [(key, v)])%list), s4))
                    else if (code c1 =? 44)%N then
                      match skip_ws s4 with
                      | String c2 s5 =>
                          if (code c2 =? 34)%N
                          then object_loop fuel depth
                                 (pairs ++ [(key, v)])%list s5
                          else fails
                      | EmptyString => fails
                      end
                    else fails
                | EmptyString => fails
                end
            end
          else fails
      | EmptyString => fails
      end
  end.
Proof. reflexivity. Qed.

(** One turn of the loop on a member with an integer value. *)
Lemma object_loop_int_member : forall fuel depth pairs k z more,
  int_fits z ->
  starts_digit more = false ->
  float_follows more = false ->
  object_loop (S (S fuel)) depth pairs
    (escape_all k ++ String dquote (": " ++ string_of_Z z ++ more))
  = match skip_ws more with
    | String c1 s4 =>
        if (code c1 =? 125)%N then
          Some (Ok (VDict (dict_of_pairs (pairs ++ [(k, VInt z)])%list), s4))
        else if (code c1 =? 44)%N then
          match skip_ws s4 with
          | String c2 s5 =>
              if (code c2 =? 34)%N
              then object_loop (S fuel) depth (pairs ++ [(k, VInt z)])%list s5
              else fails
          | EmptyString => fails
          end
        else fails
    | EmptyString => fails
    end.
Proof.
  intros fuel depth pairs k z more Hfit Hd Hf.
  rewrite object_loop_step, scanstring_escape_all.
  change (skip_ws (": " ++ string_of_Z z ++ more))
    with (String ":" (String " " (string_of_Z z ++ more))).
  cbv beta match.
  change (code ":" =? 58)%N with true. cbv beta match.
  change (skip_ws (String " " (string_of_Z z ++ more)))
    with (skip_ws (string_of_Z z ++ more)).
  rewrite (skip_ws_numeric _ (numeric_head_Z z more)).
  rewrite (scan_once_numeric _ _ _ (numeric_head_Z z more)).
  rewrite (scan_number_int _ _ Hfit Hd Hf).
  reflexivity.
Qed.

(** The loop of [JSONObject] reads the members of an integer-valued
    mapping back, one call deep per member. *)
Lemma object_loop_members : forall d pairs fuel depth tail,
  d <> [] ->
  int_valued d ->
  quantities_fit d ->
  (List.length d < fuel)%nat ->
  object_loop fuel depth pairs (members_text d tail)
  = Some (Ok (VDict (dict_of_pairs (pairs ++ d)%list), tail)).
Proof.
  induction d as [|[k v] d IH]; intros pairs fuel depth tail Hne Hint Hfit Hfuel;
    [congruence|].
  inversion Hint as [|? ? [z Hz] Hint']; subst. simpl in Hz; subst v.
  inversion Hfit as [|? ? Hz Hfit']; subst.
  specialize (Hz z eq_refl).
  destruct fuel as [|fuel]; [inversion Hfuel|].
  destruct fuel as [|fuel]; [simpl in Hfuel; lia|].
  cbn [members_text].
  destruct d as [|kv d'].
  - rewrite (object_loop_int_member _ _ _ _ _ _ Hz) by reflexivity.
    rewrite skip_ws_newline_indent. reflexivity.
  - rewrite (object_loop_int_member _ _ _ _ _ _ Hz) by reflexivity.
    change (skip_ws ("," ++ ?t)) with (String "," t).
    cbv beta match.
    change (code "," =? 125)%N with false.
    change (code "," =? 44)%N with true.
    cbv beta match.
    rewrite skip_ws_newline_indent.
    change (skip_ws (String dquote ?t)) with (String dquote t).
    cbv beta match.
    change (code dquote =? 34)%N with true. cbv beta match.
    rewrite (IH (pairs ++ [(k, VInt z)])%list (S fuel) depth tail);
      [| discriminate | exact Hint' | exact Hfit' | simpl in *; lia].
    now rewrite <- app_assoc.
Qed.

(** *** Whole documents *)

Lemma dict_of_pairs_fresh : forall d acc,
  NoDup (Dict.keys acc ++ Dict.keys d)%list ->
  fold_left (fun m kv => Dict.set m (fst kv) (snd kv)) d acc
  = (acc ++ d)%list.
Proof.
  induction d as [|[k v] d IH]; intros acc H; simpl.
  - now rewrite app_nil_r.
  - rewrite set_fresh.
    + rewrite IH.
      * now rewrite <- app_assoc.
      * unfold Dict.keys in *. rewrite map_app, <- app_assoc. exact H.
    + apply notin_lookup_None. simpl in H.
      apply NoDup_remove_2 in H. intros Hin. apply H.
      apply in_or_app. now left.
Qed.

Lemma dict_of_pairs_nodup : forall d,
  NoDup (Dict.keys d) -> dict_of_pairs d = d.
Proof. intros d H. unfold dict_of_pairs. now rewrite dict_of_pairs_fresh. Qed.

Lemma length_members_text : forall d tail,
  (List.length d <= String.length (members_text d tail))%nat.
Proof.
  induction d as [|[k v] d IH]; intros tail; [simpl; lia|].
  specialize (IH tail).
  cbn [members_text List.length].
  rewrite length_append. cbn [String.length].
  rewrite !length_append.
  destruct d as [|kv d'].
  - simpl. lia.
  - rewrite !length_append. cbn [String.length].
    remember (members_text (kv :: d') tail) as rest.
    cbn [List.length] in *. lia.
Qed.

Lemma scan_once_object : forall fuel depth body,
  scan_once (S fuel) (S depth)
    ("{" ++ newline_indent 1 ++ String dquote body)
  = object_loop fuel depth [] body.
Proof. reflexivity. Qed.

(** [json.dump] writes the text of a stock mapping whose quantities have a
    decimal text in full, and [json.load] of that text is the mapping,
    entry for entry and in the same order. *)
Theorem load_dump_stock : forall d,
  stock_mapping d ->
  quantities_fit d ->
  exists text,
    dump (VDict d) = (text, None) /\ load text = Some (Ok (VDict d)).
Proof.
  intros d [Hnodup Hint] Hfit.
  destruct d as [|kv d]; [exists "{}"; split; reflexivity|].
  destruct (iterencode_stock (kv :: d) Hint Hfit ltac:(discriminate))
    as (t & Hdump & Ht).
  exists t. split; [exact Hdump|].
  unfold load. subst t.
  pose proof (length_members_text (kv :: d) "") as Hlen.
  remember (members_text (kv :: d) "") as body eqn:Hbody.
  change (skip_ws ("{" ++ newline_indent 1 ++ String dquote body))
    with ("{" ++ newline_indent 1 ++ String dquote body).
  change max_nesting with (S (pred max_nesting)).
  rewrite scan_once_object.
  subst body.
  rewrite object_loop_members;
    [| discriminate | exact Hint | exact Hfit
     | cbn [String.length append newline_indent spaces Nat.mul Nat.add] in *;
       lia].
  simpl app. now rewrite (dict_of_pairs_nodup _ Hnodup).
Qed.

End PyJsonFacts.

(** ** [save_data] then [load_data] *)

(** X15: on a path [open] refuses, [save_data] does not raise: it hands
    [logging] one ERROR record carrying the [OSError] and returns, with the
    mapping and the disk as they were. *)
Lemma save_data_blocked : forall json w path k,
  disk w path = Blocked k ->
  save_data json path w =
    (Ok tt,
     with_log w
       (log w ++ [mkLog ERROR (Template "Failed to save inventory: %s")
                    [ArgExn (OSError k)]])).
Proof.
  intros json w path k H.
  unfold save_data, open_write; run. now rewrite H.
Qed.

(** What [save_data] does on a path [open] accepts when nothing stops
    [json.dump]. *)
Lemma save_data_written : forall json w path text,
  json_dump json (STOCK_DATA w) = (text, None) ->
  (forall k, disk w path <> Blocked k) ->
  save_data json path w =
    (Ok tt,
     with_log
       (with_disk w (update (update (disk w) path (File "")) path (File text)))
       (log w ++ [mkLog INFO (Template "Saved inventory to %s")
                    [ArgValue (VStr path)]])).
Proof.
  intros json w path text Hdump Hopen.
  unfold save_data, open_write, write; run.
  destruct (disk w path) as [|old| |k] eqn:E;
    try (exfalso; exact (Hopen k eq_refl));
    simpl; rewrite Hdump; simpl;
    unfold update at 1; rewrite String.eqb_refl; reflexivity.
Qed.

(** What it does when an exception that is neither an [OSError] nor a
    [TypeError] stops [json.dump]: the exception leaves [save_data], and the
    file holds what was written before it. *)
Lemma save_data_stopped : forall json w path text e,
  json_dump json (STOCK_DATA w) = (text, Some e) ->
  is_IOError e || is_TypeError e = false ->
  (forall k, disk w path <> Blocked k) ->
  save_data json path w =
    (Raise e,
     with_disk w (update (update (disk w) path (File "")) path (File text))).
Proof.
  intros json w path text e Hdump He Hopen.
  unfold save_data, open_write, write; run.
  destruct (disk w path) as [|old| |k] eqn:E;
    try (exfalso; exact (Hopen k eq_refl));
    simpl; rewrite Hdump; simpl;
    unfold update at 1; rewrite String.eqb_refl; simpl; rewrite He;
    reflexivity.
Qed.

(** What [load_data] does on a file that holds a document. *)
Lemma load_data_decoded : forall json w path text data,
  disk w path = File text ->
  json_load json text = Ok data ->
  load_data json path w =
    (Ok tt,
     with_log (with_stock w data)
       (log w ++ [mkLog INFO (Template "Loaded inventory from %s")
                    [ArgValue (VStr path)]])).
Proof.
  intros json w path text data Hf Hj.
  unfold load_data, open_read; run. rewrite Hf; simpl. now rewrite Hj.
Qed.

(** A stock mapping whose quantities have a decimal text is written in
    full, and every later [load_data] that finds the file as [save_data]
    left it binds [STOCK_DATA] to that mapping, whatever it was bound to. *)
Lemma save_then_load : forall json w d path,
  PyJson.implements json ->
  STOCK_DATA w = VDict d ->
  stock_mapping d ->
  quantities_fit d ->
  (forall k, disk w path <> Blocked k) ->
  exists text w1,
    PyJson.dump (VDict d) = (text, None) /\
    save_data json path w = (Ok tt, w1) /\
    STOCK_DATA w1 = VDict d /\
    disk w1 path = File text /\
    forall w2,
      disk w2 path = File text ->
      exists w3,
        load_data json path w2 = (Ok tt, w3) /\ STOCK_DATA w3 = VDict d.
Proof.
  intros json w d path [Hdump Hload] Hs Hstock Hfit Hopen.
  destruct (PyJsonFacts.load_dump_stock d Hstock Hfit)
    as (text & Htext & Hback).
  exists text. eexists. split; [exact Htext|].
  split.
  { apply (save_data_written json w path text); [|exact Hopen].
    now rewrite Hs, Hdump. }
  split; [exact Hs|].
  split; [simpl; unfold update; now rewrite String.eqb_refl|].
  intros w2 Hfile. eexists. split.
  - apply (load_data_decoded json w2 path text (VDict d) Hfile).
    exact (Hload text _ Hback).
  - reflexivity.
Qed.


(** 10 to the power 4300 is the least integer without a decimal text. *)
Lemma long_quantity : ~ int_fits (10 ^ 4300).
Proof.
  intros H. apply int_fits_iff in H.
  change (Z.of_nat int_max_str_digits) with 4300 in H.
  apply Z.abs_lt in H. exact (Z.lt_irrefl _ (proj2 H)).
Qed.





(** * Further properties of the module *)

(** ** More on dictionaries *)

Lemma set_set : forall d k v1 v2,
  Dict.set (Dict.set d k v1) k v2 = Dict.set d k v2.
Proof.
  induction d as [|[k' v'] rest IH]; intros k v1 v2; simpl.
  - now rewrite String.eqb_refl.
  - destruct (String.eqb k' k) eqn:E; simpl; rewrite E; [reflexivity|].
    now rewrite IH.
Qed.

Lemma set_stored : forall d k v,
  Dict.lookup d k = Some v -> Dict.set d k v = d.
Proof.
  induction d as [|[k' v'] rest IH]; intros k v H; simpl in *; [discriminate|].
  destruct (String.eqb k' k); [now injection H as -> | now rewrite IH].
Qed.

Lemma remove_absent : forall d k,
  Dict.lookup d k = None -> Dict.remove d k = d.
Proof.
  unfold Dict.remove.
  induction d as [|[k' v'] rest IH]; intros k H; simpl in *; [reflexivity|].
  destruct (String.eqb k' k); [discriminate | simpl; now rewrite IH].
Qed.

(** ** [add_item]: the log collector, signs, booleans *)



(** X2: [add_item] has no test on the sign of the quantity or of the
    result: for every integer [qty], zero and negative ones too, the name is
    a key afterwards with the old quantity (0 if absent) plus [qty], and
    every key there was is still a key.  The call returns when [qty] has a
    decimal text and raises [ValueError] when it has none; the mapping is
    updated either way. *)
Theorem add_item_any_sign :
  forall w d name qty q0 logs,
    STOCK_DATA w = VDict d ->
    get_qty (VStr name) w = (Ok (VInt q0), w) ->
    exists r w' d',
      add_item (VStr name) (VInt qty) logs w = (r, w') /\
      (int_fits qty -> exists logs', r = Ok logs') /\
      (~ int_fits qty -> r = Raise ValueError) /\
      STOCK_DATA w' = VDict d' /\
      Dict.lookup d' name = Some (VInt (q0 + qty)) /\
      (forall k, Dict.mem d k = true -> Dict.mem d' k = true).
Proof.
  intros w d name qty q0 logs Hd Hget.
  assert (Hq : int_of (match Dict.lookup d name with
                       | Some v => v | None => VInt 0 end) = Some q0).
  { revert Hget. unfold get_qty; run. rewrite Hd; simpl.
    intros [= ->]. reflexivity. }
  destruct (add_item_int w d name qty logs q0 Hd Hq)
    as (r & w' & Hrun & Hs & _ & Hfit & Hlong).
  exists r, w', (Dict.set d name (VInt (q0 + qty))).
  split; [exact Hrun|].
  split; [intros Hf; eexists; exact (proj1 (Hfit Hf))|].
  split; [intros Hf; exact (proj1 (Hlong Hf))|].
  split; [exact Hs|]. split; [apply lookup_set_same|].
  intros k. apply mem_set.
Qed.

Lemma add_item_any_sign_witness :
  exists r w' d',
    add_item (VStr "banana") (VInt (-2)) None (fresh_world (VDict []) "t")
      = (r, w') /\
    (int_fits (-2) -> exists logs', r = Ok logs') /\
    (~ int_fits (-2) -> r = Raise ValueError) /\
    STOCK_DATA w' = VDict d' /\
    Dict.lookup d' "banana" = Some (VInt (0 + -2)) /\
    (forall k, Dict.mem [] k = true -> Dict.mem d' k = true).
Proof.
  apply (add_item_any_sign (fresh_world (VDict []) "t") [] "banana" (-2) 0 None);
    reflexivity.
Defined.

(** X3: however a call of [add_item] ends, the quantity of every other
    name is what it was, and the disk is untouched. *)
Theorem add_item_frame :
  forall w d item qty logs r w',
    STOCK_DATA w = VDict d ->
    add_item item qty logs w = (r, w') ->
    disk w' = disk w /\
    exists d',
      STOCK_DATA w' = VDict d' /\
      forall k, VStr k <> item -> Dict.lookup d' k = Dict.lookup d k.
Proof.
  intros w d item qty logs r w' Hd Hrun.
  assert (Hsame : forall l, (r, w') = (l, w) \/
            (exists rec, (r, w') = (l, with_log w (log w ++ [rec]))) ->
            disk w' = disk w /\
            exists d', STOCK_DATA w' = VDict d' /\
              forall k, VStr k <> item -> Dict.lookup d' k = Dict.lookup d k).
  { intros l [[= -> ->]|[rec [= -> ->]]]; (split; [reflexivity|]);
      exists d; split; auto. }
  destruct item as [| | |name| |];
    try (unfold add_item in Hrun;
         eapply Hsame; right; eexists; symmetry; exact Hrun).
  destruct (isinstance_int qty) eqn:Hq;
    [|unfold add_item in Hrun; rewrite Hq in Hrun;
      eapply Hsame; right; eexists; symmetry; exact Hrun].
  destruct (isinstance_int_of qty Hq) as [n Hn].
  destruct (int_of (match Dict.lookup d name with
                    | Some v => v | None => VInt 0 end)) as [q0|] eqn:Hq0.
  - rewrite (add_item_run w d name qty logs q0 n Hd Hq0 Hq Hn) in Hrun.
    destruct (py_str qty); injection Hrun as <- <-;
      (split; [reflexivity|]); (eexists; split; [reflexivity|]);
      intros k Hk; apply lookup_set_other; congruence.
  - revert Hrun. unfold add_item. rewrite Hq. run. rewrite Hd; simpl.
    unfold py_add. rewrite Hn, Hq0.
    intros Hrun. apply (Hsame r). left.
    destruct (match Dict.lookup d name with Some v => v | None => VInt 0 end)
      as [|b|z|s|l|d0]; destruct qty; simpl in *; try discriminate;
      try (now inversion Hrun).
Qed.

Lemma add_item_frame_witness :
  exists d',
    STOCK_DATA
      (snd (add_item (VStr "apple") (VInt 4) None
              (fresh_world (VDict [("apple", VInt 3); ("pear", VInt 9)]) "t")))
    = VDict d' /\
    forall k, VStr k <> VStr "apple" ->
      Dict.lookup d' k = Dict.lookup [("apple", VInt 3); ("pear", VInt 9)] k.
Proof.
  apply (add_item_frame
           (fresh_world (VDict [("apple", VInt 3); ("pear", VInt 9)]) "t")
           [("apple", VInt 3); ("pear", VInt 9)] (VStr "apple") (VInt 4) None
           (fst (add_item (VStr "apple") (VInt 4) None
                   (fresh_world (VDict [("apple", VInt 3); ("pear", VInt 9)]) "t")))).
  - reflexivity.
  - reflexivity.
Defined.

(** X4: a [bool] passes [isinstance(qty, int)]: [add_item(name, True)]
    adds 1 and [add_item(name, False)] adds 0, the stored quantity is an
    [int], and the entry for the log collector shows [True] or [False]. *)
Theorem add_item_bool_quantity :
  forall w d name (b : bool) q0 logs,
    STOCK_DATA w = VDict d ->
    get_qty (VStr name) w = (Ok (VInt q0), w) ->
    exists w',
      add_item (VStr name) (VBool b) logs w =
        (Ok ((match logs with None => [] | Some l => l end)
             ++ [(now w ++ ": Added " ++ (if b then "True" else "False")
                  ++ " of " ++ name)%string])%list, w') /\
      get_qty (VStr name) w' = (Ok (VInt (q0 + if b then 1 else 0)), w').
Proof.
  intros w d name b q0 logs Hd Hget.
  assert (Hq : int_of (match Dict.lookup d name with
                       | Some v => v | None => VInt 0 end) = Some q0).
  { revert Hget. unfold get_qty; run. rewrite Hd; simpl.
    intros [= ->]. reflexivity. }
  destruct b.
  - eexists. split.
    + rewrite (add_item_run w d name (VBool true) logs q0 1 Hd Hq eq_refl eq_refl).
      reflexivity.
    + unfold get_qty; run. now rewrite lookup_set_same.
  - eexists. split.
    + rewrite (add_item_run w d name (VBool false) logs q0 0 Hd Hq eq_refl eq_refl).
      reflexivity.
    + unfold get_qty; run. now rewrite lookup_set_same.
Qed.

Lemma add_item_bool_quantity_witness :
  exists w',
    add_item (VStr "apple") (VBool true) None
      (fresh_world (VDict [("apple", VInt 3)]) "t")
      = (Ok ["t: Added True of apple"], w') /\
    get_qty (VStr "apple") w' = (Ok (VInt 4), w').
Proof.
  apply (add_item_bool_quantity
           (fresh_world (VDict [("apple", VInt 3)]) "t")
           [("apple", VInt 3)] "apple" true 3 None); reflexivity.
Defined.

(** X5: when the quantity stored for a name is [None], text, a list or a
    [dict] (from a loaded file, say), [add_item] and [remove_item] on that
    name raise [TypeError]: neither has a handler for it, the mapping is as
    it was and nothing is logged. *)
Theorem non_integer_quantity_raises :
  forall w d name v qty logs,
    STOCK_DATA w = VDict d ->
    Dict.lookup d name = Some v ->
    non_numeric v ->
    isinstance_int qty = true ->
    add_item (VStr name) qty logs w = (Raise TypeError, w) /\
    remove_item (VStr name) qty w = (Raise TypeError, w).
Proof.
  intros w d name v qty logs Hd Hl Hv Hq.
  destruct (isinstance_int_of qty Hq) as [n Hn].
  assert (Hnone : int_of v = None) by (destruct v; simpl in Hv; tauto).
  split.
  - unfold add_item; rewrite Hq; run. rewrite Hd; simpl. rewrite Hl.
    unfold py_add. rewrite Hnone.
    destruct v; try discriminate Hnone; destruct qty; try discriminate Hq;
      reflexivity.
  - unfold remove_item; rewrite Hq; run. rewrite Hd; simpl.
    unfold Dict.mem. rewrite Hl; simpl.
    unfold py_sub. rewrite Hnone. reflexivity.
Qed.

Lemma non_integer_quantity_raises_witness :
  add_item (VStr "apple") (VInt 1) None
    (fresh_world (VDict [("apple", VStr "seven")]) "t")
  = (Raise TypeError, fresh_world (VDict [("apple", VStr "seven")]) "t") /\
  remove_item (VStr "apple") (VInt 1)
    (fresh_world (VDict [("apple", VStr "seven")]) "t")
  = (Raise TypeError, fresh_world (VDict [("apple", VStr "seven")]) "t").
Proof.
  apply (non_integer_quantity_raises
           (fresh_world (VDict [("apple", VStr "seven")]) "t")
           [("apple", VStr "seven")] "apple" (VStr "seven") (VInt 1) None);
    reflexivity.
Defined.

(** ** [remove_item]: other entries, undoing an addition *)

(** X6: however a call of [remove_item] ends, the quantity of every other
    name is what it was, and the disk is untouched. *)
Theorem remove_item_frame :
  forall w d item qty r w',
    STOCK_DATA w = VDict d ->
    remove_item item qty w = (r, w') ->
    disk w' = disk w /\
    exists d',
      STOCK_DATA w' = VDict d' /\
      forall k, VStr k <> item -> Dict.lookup d' k = Dict.lookup d k.
Proof.
  intros w d item qty r w' Hd Hrun.
  assert (Hsame : forall l, (r, w') = (l, w) \/
            (exists rec, (r, w') = (l, with_log w (log w ++ [rec]))) ->
            disk w' = disk w /\
            exists d', STOCK_DATA w' = VDict d' /\
              forall k, VStr k <> item -> Dict.lookup d' k = Dict.lookup d k).
  { intros l [[= -> ->]|[rec [= -> ->]]]; (split; [reflexivity|]);
      exists d; split; auto. }
  unfold remove_item in Hrun.
  destruct item as [| | |name| |];
    try (eapply Hsame; right; eexists; symmetry; exact Hrun).
  destruct (isinstance_int qty) eqn:Hq;
    [|eapply Hsame; right; eexists; symmetry; exact Hrun].
  destruct (isinstance_int_of qty Hq) as [n Hn].
  revert Hrun. run. rewrite Hd; simpl. unfold Dict.mem at 1.
  destruct (Dict.lookup d name) as [v|] eqn:Hl; simpl;
    [|intros Hrun; eapply Hsame; right; eexists; symmetry; exact Hrun].
  unfold py_sub. rewrite Hn.
  destruct (int_of v) as [q0|] eqn:Hv; simpl;
    [|intros Hrun; eapply Hsame; left; symmetry; exact Hrun].
  rewrite lookup_set_same; simpl. unfold py_le_int; simpl.
  destruct (q0 - n <=? 0); simpl.
  - unfold Dict.mem. rewrite lookup_set_same; simpl.
    intros [= <- <-]. split; [reflexivity|].
    eexists. split; [reflexivity|].
    intros k Hk. rewrite remove_set_same.
    apply lookup_remove_other. congruence.
  - intros [= <- <-]. split; [reflexivity|].
    eexists. split; [reflexivity|].
    intros k Hk. apply lookup_set_other. congruence.
Qed.

Lemma remove_item_frame_witness :
  exists d',
    STOCK_DATA
      (snd (remove_item (VStr "apple") (VInt 5)
              (fresh_world (VDict [("apple", VInt 3); ("pear", VInt 9)]) "t")))
    = VDict d' /\
    forall k, VStr k <> VStr "apple" ->
      Dict.lookup d' k = Dict.lookup [("apple", VInt 3); ("pear", VInt 9)] k.
Proof.
  apply (remove_item_frame
           (fresh_world (VDict [("apple", VInt 3); ("pear", VInt 9)]) "t")
           [("apple", VInt 3); ("pear", VInt 9)] (VStr "apple") (VInt 5)
           (fst (remove_item (VStr "apple") (VInt 5)
                   (fresh_world (VDict [("apple", VInt 3); ("pear", VInt 9)]) "t")))).
  - reflexivity.
  - reflexivity.
Defined.

(** X7: [remove_item(name, qty)] undoes [add_item(name, qty)]: when the
    name was absent, or present with a quantity above 0, the two calls in
    a row leave the mapping exactly as it was, entries and order, for every
    integer [qty].  [add_item] returns when [qty] has a decimal text and
    raises [ValueError] when it has none, with the mapping updated either
    way; [remove_item] returns. *)
Theorem add_then_remove_restores :
  forall w d name qty logs,
    STOCK_DATA w = VDict d ->
    Dict.lookup d name = None \/
    (exists q0, Dict.lookup d name = Some (VInt q0) /\ 0 < q0) ->
    exists r w1 w2,
      add_item (VStr name) (VInt qty) logs w = (r, w1) /\
      (int_fits qty -> exists logs', r = Ok logs') /\
      (~ int_fits qty -> r = Raise ValueError) /\
      remove_item (VStr name) (VInt qty) w1 = (Ok tt, w2) /\
      STOCK_DATA w2 = VDict d.
Proof.
  intros w d name qty logs Hd H.
  assert (Hq : exists q0,
             int_of (match Dict.lookup d name with
                     | Some v => v | None => VInt 0 end) = Some q0 /\
             ((q0 = 0 /\ Dict.lookup d name = None) \/
              (0 < q0 /\ Dict.lookup d name = Some (VInt q0)))).
  { destruct H as [H|(q0 & H & Hpos)]; rewrite H.
    - exists 0. auto.
    - exists q0. auto. }
  destruct Hq as (q0 & Hq0 & Hcase).
  destruct (add_item_int w d name qty logs q0 Hd Hq0)
    as (r & w1 & Hrun & Hs & _ & Hfit & Hlong).
  exists r, w1. eexists. split; [exact Hrun|].
  split; [intros Hf; eexists; exact (proj1 (Hfit Hf))|].
  split; [intros Hf; exact (proj1 (Hlong Hf))|].
  split.
  { apply (remove_item_present w1 (Dict.set d name (VInt (q0 + qty)))
             name qty (q0 + qty) Hs). apply lookup_set_same. }
  simpl. replace (q0 + qty - qty) with q0 by lia.
  destruct Hcase as [[-> Hl]|[Hpos Hl]].
  - simpl. rewrite remove_set_same. now rewrite remove_absent.
  - destruct (Z.leb_spec q0 0); [lia|].
    rewrite set_set. now rewrite set_stored.
Qed.

Lemma add_then_remove_restores_witness :
  exists r w1 w2,
    add_item (VStr "pear") (VInt 4) None
      (fresh_world (VDict [("apple", VInt 3)]) "t") = (r, w1) /\
    (int_fits 4 -> exists logs', r = Ok logs') /\
    (~ int_fits 4 -> r = Raise ValueError) /\
    remove_item (VStr "pear") (VInt 4) w1 = (Ok tt, w2) /\
    STOCK_DATA w2 = VDict [("apple", VInt 3)].
Proof.
  apply (add_then_remove_restores
           (fresh_world (VDict [("apple", VInt 3)]) "t")
           [("apple", VInt 3)] "pear" 4 None).
  - reflexivity.
  - left; reflexivity.
Defined.

(** X8: two additions to a name add up: [add_item(name, a)] followed by
    [add_item(name, b)] leaves the mapping [add_item(name, a + b)] leaves,
    whether the calls return or raise the [ValueError] of a quantity
    without decimal text; each of them returns when its quantity has a
    decimal text. *)
Theorem add_item_twice :
  forall w d name a b logs1 logs2 logs3,
    STOCK_DATA w = VDict d ->
    int_valued d ->
    exists r1 w1 r2 w2 r3 w3,
      add_item (VStr name) (VInt a) logs1 w = (r1, w1) /\
      add_item (VStr name) (VInt b) logs2 w1 = (r2, w2) /\
      add_item (VStr name) (VInt (a + b)) logs3 w = (r3, w3) /\
      STOCK_DATA w2 = STOCK_DATA w3 /\
      (int_fits a -> exists l, r1 = Ok l) /\
      (int_fits b -> exists l, r2 = Ok l) /\
      (int_fits (a + b) -> exists l, r3 = Ok l).
Proof.
  intros w d name a b logs1 logs2 logs3 Hd Hint.
  destruct (int_valued_lookup d name Hint) as [q0 Hq0].
  destruct (add_item_int w d name a logs1 q0 Hd Hq0)
    as (r1 & w1 & Hrun1 & Hs1 & _ & Hfit1 & _).
  destruct (add_item_int w1 (Dict.set d name (VInt (q0 + a))) name b logs2
              (q0 + a) Hs1)
    as (r2 & w2 & Hrun2 & Hs2 & _ & Hfit2 & _).
  { now rewrite lookup_set_same. }
  destruct (add_item_int w d name (a + b) logs3 q0 Hd Hq0)
    as (r3 & w3 & Hrun3 & Hs3 & _ & Hfit3 & _).
  exists r1, w1, r2, w2, r3, w3.
  split; [exact Hrun1|]. split; [exact Hrun2|]. split; [exact Hrun3|].
  split; [rewrite Hs2, Hs3, set_set; now rewrite Z.add_assoc|].
  split; [intros Hf; eexists; exact (proj1 (Hfit1 Hf))|].
  split; [intros Hf; eexists; exact (proj1 (Hfit2 Hf))|].
  intros Hf; eexists; exact (proj1 (Hfit3 Hf)).
Qed.

Lemma add_item_twice_witness :
  exists r1 w1 r2 w2 r3 w3,
    add_item (VStr "apple") (VInt 2) None (fresh_world (VDict []) "t")
      = (r1, w1) /\
    add_item (VStr "apple") (VInt 5) None w1 = (r2, w2) /\
    add_item (VStr "apple") (VInt (2 + 5)) None (fresh_world (VDict []) "t")
      = (r3, w3) /\
    STOCK_DATA w2 = STOCK_DATA w3.
Proof.
  destruct (add_item_twice (fresh_world (VDict []) "t") [] "apple" 2 5
              None None None eq_refl (Forall_nil _))
    as (r1 & w1 & r2 & w2 & r3 & w3 & H1 & H2 & H3 & H4 & _).
  exists r1, w1, r2, w2, r3, w3. auto.
Defined.

(** ** Invariants of the two mutators *)

Lemma remove_item_keeps_positive_witness :
  exists w' d',
    remove_item (VStr "apple") (VInt 3)
      (fresh_world (VDict [("apple", VInt 3); ("pear", VInt 9)]) "t")
      = (Ok tt, w') /\
    STOCK_DATA w' = VDict d' /\ positive_stock d'.
Proof.
  apply (remove_item_keeps_positive
           (fresh_world (VDict [("apple", VInt 3); ("pear", VInt 9)]) "t")
           [("apple", VInt 3); ("pear", VInt 9)] (VStr "apple") (VInt 3)).
  - reflexivity.
  - repeat constructor; simpl; eexists; (split; [reflexivity | lia]).
Defined.

Lemma add_item_keeps_positive_witness :
  exists r w' d',
    add_item (VStr "pear") (VInt 2) None
      (fresh_world (VDict [("apple", VInt 3)]) "t") = (r, w') /\
    STOCK_DATA w' = VDict d' /\ positive_stock d' /\
    (int_fits 2 -> exists logs', r = Ok logs') /\
    (~ int_fits 2 -> r = Raise ValueError).
Proof.
  apply (add_item_keeps_positive
           (fresh_world (VDict [("apple", VInt 3)]) "t")
           [("apple", VInt 3)] "pear" 2 None).
  - reflexivity.
  - repeat constructor; simpl; eexists; (split; [reflexivity | lia]).
  - lia.
Defined.

(** X11: on a stock mapping (distinct text keys, integer quantities)
    [remove_item] never raises and [add_item] raises nothing but the
    [ValueError] of an integer quantity without decimal text, whatever
    objects they are given; each leaves a stock mapping. *)
Theorem mutators_keep_stock_mapping :
  forall w d item qty logs,
    STOCK_DATA w = VDict d ->
    stock_mapping d ->
    (exists r w' d',
       add_item item qty logs w = (r, w') /\
       STOCK_DATA w' = VDict d' /\ stock_mapping d' /\
       ((exists logs', r = Ok logs') \/
        (r = Raise ValueError /\ exists z, qty = VInt z /\ ~ int_fits z))) /\
    (exists w' d',
       remove_item item qty w = (Ok tt, w') /\
       STOCK_DATA w' = VDict d' /\ stock_mapping d').
Proof.
  intros w d item qty logs Hd Hs. split.
  - now apply add_item_keeps_stock_mapping with (d := d).
  - now apply remove_item_keeps_stock_mapping with (d := d).
Qed.

Lemma mutators_keep_stock_mapping_witness :
  (exists r w' d',
     add_item (VStr "apple") (VBool true) None
       (fresh_world (VDict [("apple", VInt 3)]) "t") = (r, w') /\
     STOCK_DATA w' = VDict d' /\ stock_mapping d' /\
     ((exists logs', r = Ok logs') \/
      (r = Raise ValueError /\
       exists z, VBool true = VInt z /\ ~ int_fits z))) /\
  (exists w' d',
     remove_item (VStr "apple") (VBool true)
       (fresh_world (VDict [("apple", VInt 3)]) "t") = (Ok tt, w') /\
     STOCK_DATA w' = VDict d' /\ stock_mapping d').
Proof.
  apply (mutators_keep_stock_mapping
           (fresh_world (VDict [("apple", VInt 3)]) "t")
           [("apple", VInt 3)] (VStr "apple") (VBool true) None).
  - reflexivity.
  - split.
    + repeat constructor; simpl; intuition discriminate.
    + repeat constructor; simpl; eauto.
Defined.

(** ** [load_data]: what it binds, what it lets through *)

(** X12: on a file that holds a JSON document, [load_data] binds
    [STOCK_DATA] to the decoded document and to nothing else: whatever the
    mapping held before the call is gone, the disk is untouched and one INFO
    record is logged. *)
Theorem load_data_replaces_mapping :
  forall json w path text data,
    disk w path = File text ->
    json_load json text = Ok data ->
    load_data json path w =
      (Ok tt,
       with_log (with_stock w data)
         (log w ++ [mkLog INFO (Template "Loaded inventory from %s")
                      [ArgValue (VStr path)]])).
Proof.
  intros json w path text data Hf Hj.
  unfold load_data, open_read; run. rewrite Hf; simpl. now rewrite Hj.
Qed.

Lemma load_data_replaces_mapping_witness :
  load_data PyJson.module INVENTORY_FILE
    (mkWorld (VDict [("apple", VInt 7)])
       (update (fun _ => Absent) INVENTORY_FILE (File "{ }")) [] "t")
  = (Ok tt,
     with_log
       (with_stock
          (mkWorld (VDict [("apple", VInt 7)])
             (update (fun _ => Absent) INVENTORY_FILE (File "{ }")) [] "t")
          (VDict []))
       (log (mkWorld (VDict [("apple", VInt 7)])
               (update (fun _ => Absent) INVENTORY_FILE (File "{ }")) [] "t")
        ++ [mkLog INFO (Template "Loaded inventory from %s")
              [ArgValue (VStr INVENTORY_FILE)]])).
Proof.
  apply (load_data_replaces_mapping PyJson.module
           (mkWorld (VDict [("apple", VInt 7)])
              (update (fun _ => Absent) INVENTORY_FILE (File "{ }")) [] "t")
           INVENTORY_FILE "{ }" (VDict [])); reflexivity.
Defined.

(** X13: [load_data] does not look at what it decoded.  After it loaded a
    document that is not an object (an array, a text, a number, [null]),
    [get_qty], [add_item] and [check_low_items] raise [AttributeError], and
    [print_data] raises it after the header line. *)
Theorem load_data_non_object :
  forall json w path text data,
    disk w path = File text ->
    json_load json text = Ok data ->
    (forall d, data <> VDict d) ->
    exists w',
      load_data json path w = (Ok tt, w') /\
      STOCK_DATA w' = data /\
      (forall name, get_qty (VStr name) w' = (Raise AttributeError, w')) /\
      (forall name qty logs,
         isinstance_int qty = true ->
         add_item (VStr name) qty logs w' = (Raise AttributeError, w')) /\
      (forall threshold,
         check_low_items threshold w' = (Raise AttributeError, w')) /\
      (forall out,
         print_data (w', out)
         = (Raise AttributeError, (w', out ++ ["Items Report:"])%list)).
Proof.
  intros json w path text data Hf Hj Hnd.
  eexists. split.
  { unfold load_data, open_read; run. rewrite Hf; simpl. rewrite Hj.
    reflexivity. }
  split; [reflexivity|].
  assert (Hg : forall key, method_get data (VStr key) (VInt 0)
                           = Raise AttributeError).
  { intros key. destruct data; try reflexivity. exfalso. exact (Hnd d eq_refl). }
  assert (Hi : method_items data = Raise AttributeError).
  { destruct data; try reflexivity. exfalso. exact (Hnd d eq_refl). }
  repeat split.
  - intros name. unfold get_qty; run. now rewrite Hg.
  - intros name qty logs Hq. unfold add_item; rewrite Hq; run. now rewrite Hg.
  - intros threshold. unfold check_low_items; run. now rewrite Hi.
  - intros out. unfold print_data, io_bind, print, call, read_stock, lift; simpl.
    now rewrite Hi.
Qed.

Lemma load_data_non_object_witness :
  exists w',
    load_data PyJson.module INVENTORY_FILE
      (mkWorld (VDict [])
         (update (fun _ => Absent) INVENTORY_FILE (File "[1, 2]")) [] "t")
      = (Ok tt, w') /\
    STOCK_DATA w' = VList [VInt 1; VInt 2] /\
    get_qty (VStr "apple") w' = (Raise AttributeError, w').
Proof.
  destruct (load_data_non_object PyJson.module
              (mkWorld (VDict [])
                 (update (fun _ => Absent) INVENTORY_FILE (File "[1, 2]")) [] "t")
              INVENTORY_FILE "[1, 2]" (VList [VInt 1; VInt 2])
              eq_refl eq_refl ltac:(discriminate))
    as (w' & Hrun & Hs & Hget & _).
  exists w'. split; [exact Hrun|]. split; [exact Hs | apply Hget].
Defined.

(** X14: an I/O failure other than a missing file is not handled by
    [load_data]: on a path [open] refuses for another reason the [OSError]
    leaves the function, and so does the [UnicodeDecodeError] of a file that
    is not UTF-8 text; the mapping is as it was and nothing is logged. *)
Theorem load_data_io_error_propagates :
  forall json w path,
    (forall k, disk w path = Blocked k -> k <> FileNotFoundError ->
               load_data json path w = (Raise (OSError k), w)) /\
    (disk w path = Undecodable ->
     load_data json path w = (Raise UnicodeDecodeError, w)).
Proof.
  intros json w path. split.
  - intros k Hb Hk. apply load_data_propagates.
    + destruct k; try reflexivity. congruence.
    + left. unfold open_read. now rewrite Hb.
  - intros Hu. apply load_data_propagates; [reflexivity|].
    left. unfold open_read. now rewrite Hu.
Qed.

Lemma load_data_io_error_propagates_witness :
  load_data PyJson.module "stock"
    (mkWorld (VDict [("apple", VInt 7)])
       (update (fun _ => Absent) "stock" (Blocked IsADirectoryError)) [] "t")
  = (Raise (OSError IsADirectoryError),
     mkWorld (VDict [("apple", VInt 7)])
       (update (fun _ => Absent) "stock" (Blocked IsADirectoryError)) [] "t").
Proof.
  apply (proj1 (load_data_io_error_propagates PyJson.module
                  (mkWorld (VDict [("apple", VInt 7)])
                     (update (fun _ => Absent) "stock"
                        (Blocked IsADirectoryError)) [] "t")
                  "stock") IsADirectoryError).
  - reflexivity.
  - discriminate.
Defined.

(** ** [save_data]: what it writes, what it leaves alone *)

Lemma save_data_blocked_witness :
  save_data PyJson.module "stock"
    (mkWorld (VDict [("apple", VInt 7)])
       (update (fun _ => Absent) "stock" (Blocked PermissionError)) [] "t")
  = (Ok tt,
     with_log
       (mkWorld (VDict [("apple", VInt 7)])
          (update (fun _ => Absent) "stock" (Blocked PermissionError)) [] "t")
       (log (mkWorld (VDict [("apple", VInt 7)])
               (update (fun _ => Absent) "stock" (Blocked PermissionError))
               [] "t")
        ++ [mkLog ERROR (Template "Failed to save inventory: %s")
              [ArgExn (OSError PermissionError)]])).
Proof.
  apply (save_data_blocked PyJson.module
           (mkWorld (VDict [("apple", VInt 7)])
              (update (fun _ => Absent) "stock" (Blocked PermissionError))
              [] "t")
           "stock" PermissionError).
  reflexivity.
Defined.

(** X16: however [save_data] ends, [STOCK_DATA] is bound to what it was
    bound to, no path but the one given has changed on disk, and the
    exception that leaves it, if any, is neither an [OSError] nor a
    [TypeError]. *)
Theorem save_data_frame :
  forall json w path r w',
    save_data json path w = (r, w') ->
    STOCK_DATA w' = STOCK_DATA w /\
    (forall q, q <> path -> disk w' q = disk w q) /\
    (forall e, r = Raise e -> is_IOError e = false /\ is_TypeError e = false).
Proof.
  intros json w path r w' Hrun.
  assert (Hup : forall q n m, q <> path ->
            update (update (disk w) path n) path m q = disk w q).
  { intros q n m Hq. unfold update.
    destruct (String.eqb_spec q path); congruence. }
  assert (Hdone : forall (w1 : world) (r1 : result unit),
            STOCK_DATA w1 = STOCK_DATA w ->
            (forall q, q <> path -> disk w1 q = disk w q) ->
            (forall e, r1 = Raise e ->
                       is_IOError e = false /\ is_TypeError e = false) ->
            (r1, w1) = (r, w') ->
            STOCK_DATA w' = STOCK_DATA w /\
            (forall q, q <> path -> disk w' q = disk w q) /\
            (forall e, r = Raise e ->
                       is_IOError e = false /\ is_TypeError e = false)).
  { intros w1 r1 H1 H2 H3 [= <- <-]. auto. }
  assert (Hwritten : forall n,
            (forall k, n <> Blocked k) -> disk w path = n ->
            STOCK_DATA w' = STOCK_DATA w /\
            (forall q, q <> path -> disk w' q = disk w q) /\
            (forall e, r = Raise e ->
                       is_IOError e = false /\ is_TypeError e = false)).
  { intros n Hn E. revert Hrun.
    unfold save_data, open_write, write; run. rewrite E.
    destruct n as [|old| |k]; try (exfalso; exact (Hn k eq_refl)); simpl;
      destruct (json_dump json (STOCK_DATA w)) as [text [e|]]; simpl;
      unfold update at 1; rewrite String.eqb_refl; simpl;
      try (apply Hdone; simpl; auto; discriminate);
      destruct (is_IOError e || is_TypeError e) eqn:He; simpl;
      apply Hdone; simpl; auto; try discriminate;
      intros e' [= <-]; now apply orb_false_elim in He. }
  destruct (disk w path) as [|old| |k] eqn:E.
  - apply (Hwritten Absent); [discriminate | reflexivity].
  - apply (Hwritten (File old)); [discriminate | reflexivity].
  - apply (Hwritten Undecodable); [discriminate | reflexivity].
  - revert Hrun. unfold save_data, open_write; run. rewrite E. simpl.
    apply Hdone; simpl; auto; discriminate.
Qed.

Lemma save_data_frame_witness :
  STOCK_DATA
    (snd (save_data PyJson.module INVENTORY_FILE
            (fresh_world (VDict [("apple", VInt 7)]) "t")))
  = STOCK_DATA (fresh_world (VDict [("apple", VInt 7)]) "t") /\
  (forall q, q <> INVENTORY_FILE ->
     disk (snd (save_data PyJson.module INVENTORY_FILE
                  (fresh_world (VDict [("apple", VInt 7)]) "t"))) q
     = disk (fresh_world (VDict [("apple", VInt 7)]) "t") q) /\
  (forall e,
     fst (save_data PyJson.module INVENTORY_FILE
            (fresh_world (VDict [("apple", VInt 7)]) "t")) = Raise e ->
     is_IOError e = false /\ is_TypeError e = false).
Proof.
  apply (save_data_frame PyJson.module
           (fresh_world (VDict [("apple", VInt 7)]) "t") INVENTORY_FILE).
  reflexivity.
Defined.

(** X17: when [json.dump] writes its text in full, [save_data] leaves the
    file holding that text and nothing of what it held before: the file is
    opened for writing, not for appending. *)
Theorem save_data_overwrites :
  forall json w path text,
    (forall k, disk w path <> Blocked k) ->
    json_dump json (STOCK_DATA w) = (text, None) ->
    exists w',
      save_data json path w = (Ok tt, w') /\
      disk w' path = File text /\
      log w' = (log w ++ [mkLog INFO (Template "Saved inventory to %s")
                            [ArgValue (VStr path)]])%list.
Proof.
  intros json w path text Hopen Hdump.
  unfold save_data, open_write, write; run.
  destruct (disk w path) as [|old| |k] eqn:E;
    try (exfalso; exact (Hopen k eq_refl));
    simpl; rewrite Hdump; simpl;
    unfold update at 1; rewrite String.eqb_refl; simpl;
    (eexists; split; [reflexivity|]; split; [|reflexivity]);
    simpl; unfold update; now rewrite String.eqb_refl.
Qed.

Lemma save_data_overwrites_witness :
  exists w',
    save_data PyJson.module INVENTORY_FILE
      (mkWorld (VDict [])
         (update (fun _ => Absent) INVENTORY_FILE (File "old text")) [] "t")
      = (Ok tt, w') /\
    disk w' INVENTORY_FILE = File "{}".
Proof.
  destruct (save_data_overwrites PyJson.module
              (mkWorld (VDict [])
                 (update (fun _ => Absent) INVENTORY_FILE (File "old text"))
                 [] "t")
              INVENTORY_FILE "{}" ltac:(discriminate) eq_refl)
    as (w' & Hrun & Hdisk & _).
  exists w'. split; [exact Hrun | exact Hdisk].
Defined.

(** X18: when [json.dump] stops with a [TypeError], [save_data] does not
    raise: it logs one ERROR record and returns, and the file is left
    holding the part of the text that was written before the failure. *)
Theorem save_data_type_error :
  forall json w path text,
    (forall k, disk w path <> Blocked k) ->
    json_dump json (STOCK_DATA w) = (text, Some TypeError) ->
    exists w',
      save_data json path w = (Ok tt, w') /\
      disk w' path = File text /\
      STOCK_DATA w' = STOCK_DATA w /\
      log w' = (log w ++ [mkLog ERROR (Template "Failed to save inventory: %s")
                            [ArgExn TypeError]])%list.
Proof.
  intros json w path text Hopen Hdump.
  unfold save_data, open_write, write; run.
  destruct (disk w path) as [|old| |k] eqn:E;
    try (exfalso; exact (Hopen k eq_refl));
    simpl; rewrite Hdump; simpl;
    unfold update at 1; rewrite String.eqb_refl; simpl;
    (eexists; split; [reflexivity|]; split; [|split; reflexivity]);
    simpl; unfold update; now rewrite String.eqb_refl.
Qed.

Lemma save_data_type_error_witness :
  exists w',
    save_data (mkJson (fun _ => ("{", Some TypeError)) (json_load PyJson.module))
      INVENTORY_FILE (fresh_world (VDict [("apple", VInt 7)]) "t")
      = (Ok tt, w') /\
    disk w' INVENTORY_FILE = File "{".
Proof.
  destruct (save_data_type_error
              (mkJson (fun _ => ("{", Some TypeError)) (json_load PyJson.module))
              (fresh_world (VDict [("apple", VInt 7)]) "t")
              INVENTORY_FILE "{" ltac:(discriminate) eq_refl)
    as (w' & Hrun & Hdisk & _).
  exists w'. split; [exact Hrun | exact Hdisk].
Defined.

(** ** [check_low_items]: thresholds, bad quantities, deleted items *)

Lemma names_below_In : forall d threshold name,
  In name (names_below d threshold) <->
  exists v q, In (name, v) d /\ int_of v = Some q /\ q < threshold.
Proof.
  intros d threshold name. unfold names_below, Dict.keys.
  rewrite in_map_iff. split.
  - intros ([k v] & Hk & Hin). simpl in Hk; subst k.
    apply filter_In in Hin. destruct Hin as [Hin Hlt]. simpl in Hlt.
    destruct (int_of v) as [q|] eqn:Hv; [|discriminate].
    exists v, q. repeat split; auto. now apply Z.ltb_lt.
  - intros (v & q & Hin & Hv & Hlt). exists (name, v). split; [reflexivity|].
    apply filter_In. split; [exact Hin|]. simpl. rewrite Hv.
    now apply Z.ltb_lt.
Qed.

(** X19: raising the threshold never drops a name: on a mapping with
    integer quantities every name [check_low_items] lists at a threshold is
    listed at every higher one. *)
Theorem check_low_items_monotone :
  forall w d t1 t2,
    STOCK_DATA w = VDict d ->
    int_valued d ->
    t1 <= t2 ->
    exists l1 l2,
      check_low_items t1 w = (Ok l1, w) /\
      check_low_items t2 w = (Ok l2, w) /\
      incl l1 l2.
Proof.
  intros w d t1 t2 Hd Hint Hle.
  exists (names_below d t1), (names_below d t2).
  split; [|split].
  - unfold check_low_items; run. rewrite Hd; simpl.
    now rewrite (low_items_int_valued _ _ Hint).
  - unfold check_low_items; run. rewrite Hd; simpl.
    now rewrite (low_items_int_valued _ _ Hint).
  - intros name Hin. apply names_below_In in Hin.
    destruct Hin as (v & q & Hin & Hv & Hlt).
    apply names_below_In. exists v, q. repeat split; auto. lia.
Qed.

Lemma check_low_items_monotone_witness :
  exists l1 l2,
    check_low_items 5
      (fresh_world (VDict [("apple", VInt 3); ("pear", VInt 9)]) "t")
      = (Ok l1, fresh_world (VDict [("apple", VInt 3); ("pear", VInt 9)]) "t") /\
    check_low_items 10
      (fresh_world (VDict [("apple", VInt 3); ("pear", VInt 9)]) "t")
      = (Ok l2, fresh_world (VDict [("apple", VInt 3); ("pear", VInt 9)]) "t") /\
    incl l1 l2.
Proof.
  apply (check_low_items_monotone
           (fresh_world (VDict [("apple", VInt 3); ("pear", VInt 9)]) "t")
           [("apple", VInt 3); ("pear", VInt 9)] 5 10).
  - reflexivity.
  - repeat constructor; simpl; eauto.
  - lia.
Defined.

Lemma low_items_raises : forall d threshold k v,
  In (k, v) d -> int_of v = None -> low_items d threshold = Raise TypeError.
Proof.
  induction d as [|[k' v'] rest IH]; intros threshold k v Hin Hv;
    [inversion Hin|].
  simpl. unfold py_lt_int.
  destruct (int_of v') as [q|] eqn:Hv'; [|reflexivity].
  destruct Hin as [[= -> ->]|Hin]; [congruence|].
  now rewrite (IH threshold k v Hin Hv).
Qed.

(** X20: one quantity that is [None], text, a list or a [dict] (from a
    loaded file, say) makes [check_low_items] raise [TypeError] at every
    threshold, wherever the entry stands in the mapping. *)
Theorem check_low_items_type_error :
  forall w d threshold k v,
    STOCK_DATA w = VDict d ->
    In (k, v) d ->
    non_numeric v ->
    check_low_items threshold w = (Raise TypeError, w).
Proof.
  intros w d threshold k v Hd Hin Hv.
  assert (Hnone : int_of v = None) by (destruct v; simpl in Hv; tauto).
  unfold check_low_items; run. rewrite Hd; simpl.
  now rewrite (low_items_raises d threshold k v Hin Hnone).
Qed.

Lemma check_low_items_type_error_witness :
  check_low_items 5
    (fresh_world (VDict [("apple", VInt 3); ("pear", VNone)]) "t")
  = (Raise TypeError,
     fresh_world (VDict [("apple", VInt 3); ("pear", VNone)]) "t").
Proof.
  apply (check_low_items_type_error
           (fresh_world (VDict [("apple", VInt 3); ("pear", VNone)]) "t")
           [("apple", VInt 3); ("pear", VNone)] 5 "pear" VNone).
  - reflexivity.
  - right; left; reflexivity.
  - reflexivity.
Defined.

Lemma remove_In : forall d k name v,
  In (k, v) (Dict.remove d name) -> In (k, v) d /\ k <> name.
Proof.
  unfold Dict.remove. intros d k name v H.
  apply filter_In in H. destruct H as [Hin Hne]. split; [exact Hin|].
  simpl in Hne. intros ->. now rewrite String.eqb_refl in Hne.
Qed.

(** X21: an item [remove_item] has taken down to 0 or below is listed by
    [check_low_items] at no threshold, however high: its entry is gone. *)
Theorem removed_item_not_low :
  forall w d name qty q0,
    STOCK_DATA w = VDict d ->
    int_valued d ->
    Dict.lookup d name = Some (VInt q0) ->
    q0 - qty <= 0 ->
    exists w',
      remove_item (VStr name) (VInt qty) w = (Ok tt, w') /\
      forall threshold,
        exists names,
          check_low_items threshold w' = (Ok names, w') /\ ~ In name names.
Proof.
  intros w d name qty q0 Hd Hint Hl Hle.
  eexists. split; [apply (remove_item_present w d name qty q0 Hd Hl)|].
  intros threshold.
  destruct (Z.leb_spec (q0 - qty) 0) as [_|Hgt]; [|lia].
  exists (names_below (Dict.remove d name) threshold). split.
  - unfold check_low_items; run.
    now rewrite (low_items_int_valued _ _ (int_valued_remove d name Hint)).
  - intros Hin. apply names_below_In in Hin.
    destruct Hin as (v & q & Hin & _).
    apply remove_In in Hin. tauto.
Qed.

Lemma removed_item_not_low_witness :
  exists w',
    remove_item (VStr "apple") (VInt 5)
      (fresh_world (VDict [("apple", VInt 3); ("pear", VInt 9)]) "t")
      = (Ok tt, w') /\
    forall threshold,
      exists names,
        check_low_items threshold w' = (Ok names, w') /\ ~ In "apple" names.
Proof.
  apply (removed_item_not_low
           (fresh_world (VDict [("apple", VInt 3); ("pear", VInt 9)]) "t")
           [("apple", VInt 3); ("pear", VInt 9)] "apple" 5 3).
  - reflexivity.
  - repeat constructor; simpl; eauto.
  - reflexivity.
  - lia.
Defined.

(** ** [print_data] and [main] *)

Ltac io_run :=
  unfold io_bind, io_ret, call, print, read_stock, lift; simpl.

Lemma print_items_lines : forall d w out,
  int_valued d ->
  quantities_fit d ->
  print_items d (w, out) = (Ok tt, (w, (out ++ map report_line d)%list)).
Proof.
  induction d as [|[k v] rest IH]; intros w out Hint Hfit; simpl.
  - unfold io_ret. now rewrite app_nil_r.
  - inversion Hint as [|? ? [z Hz] Hint']; subst. simpl in Hz; subst v.
    inversion Hfit as [|? ? Hz Hfit']; subst.
    specialize (Hz z eq_refl).
    change (py_str (VInt z)) with (int_str z).
    rewrite (int_str_fits _ Hz). io_run.
    rewrite (IH _ _ Hint' Hfit'). now rewrite <- app_assoc.
Qed.

(** X22: on a mapping whose quantities are integers with a decimal text (at
    most 4300 digits), [print_data] writes the header and then one line per
    entry, in the order of the mapping, and changes nothing:
    [name -> quantity] with the quantity in decimal.  An empty mapping gives
    the header alone. *)
Theorem print_data_lines :
  forall w d out,
    STOCK_DATA w = VDict d ->
    int_valued d ->
    quantities_fit d ->
    print_data (w, out)
    = (Ok tt, (w, out ++ "Items Report:" :: map report_line d)%list).
Proof.
  intros w d out Hd Hint Hfit.
  unfold print_data. io_run. rewrite Hd; simpl.
  rewrite (print_items_lines _ _ _ Hint Hfit). rewrite <- app_assoc.
  reflexivity.
Qed.

Lemma print_data_lines_witness :
  print_data
    (fresh_world (VDict [("apple", VInt 7); ("banana", VInt (-2))]) "t", [])
  = (Ok tt,
     (fresh_world (VDict [("apple", VInt 7); ("banana", VInt (-2))]) "t",
      ["Items Report:"; "apple -> 7"; "banana -> -2"])).
Proof.
  apply (print_data_lines
           (fresh_world (VDict [("apple", VInt 7); ("banana", VInt (-2))]) "t")
           [("apple", VInt 7); ("banana", VInt (-2))] []).
  - reflexivity.
  - repeat constructor; simpl; eauto.
  - repeat (constructor;
            [intros z [= <-]; apply Nat.leb_le; reflexivity|]).
    constructor.
Defined.

(** X23: [main], started on an empty mapping with an inventory file
    [open] accepts, returns without raising.  It prints the stock of apples
    (7), the low items ([banana], stored at -2 by the second call) and the
    report of both entries; the mapping ends as the one [save_data] wrote
    and [load_data] read back, and the seven calls that log leave two INFO,
    one ERROR, one INFO, one WARNING and two INFO records, in this order. *)
Theorem main_run :
  forall w out,
    STOCK_DATA w = VDict [] ->
    (forall k, disk w INVENTORY_FILE <> Blocked k) ->
    exists w',
      main PyJson.module (w, out)
      = (Ok tt,
         (w', out ++ ["Apple stock: 7"; "Low items: ['banana']";
                      "Items Report:"; "apple -> 7"; "banana -> -2"])%list) /\
      STOCK_DATA w' = VDict [("apple", VInt 7); ("banana", VInt (-2))] /\
      disk w' INVENTORY_FILE
      = File (fst (PyJson.dump
                     (VDict [("apple", VInt 7); ("banana", VInt (-2))]))) /\
      map level (log w')
      = (map level (log w)
         ++ [INFO; INFO; ERROR; INFO; WARNING; INFO; INFO])%list.
Proof.
  intros [stock dsk lg t] out Hs Hopen. simpl in Hs, Hopen. subst stock.
  unfold main, print_data. io_run.
  unfold save_data, load_data, open_write, write, open_read; run.
  unfold INVENTORY_FILE in *.
  destruct (dsk "inventory.json") as [|old| |k] eqn:E;
    try (exfalso; exact (Hopen k eq_refl));
    simpl; unfold update; simpl; io_run;
    rewrite <- !app_assoc; simpl;
    (eexists; split; [reflexivity|]; split; [reflexivity|];
     split; [reflexivity|]; simpl;
     rewrite !map_app; simpl; rewrite <- ?app_assoc; reflexivity).
Qed.

Lemma main_run_witness :
  exists w',
    main PyJson.module (fresh_world (VDict []) "t", [])
    = (Ok tt,
       (w', ["Apple stock: 7"; "Low items: ['banana']";
             "Items Report:"; "apple -> 7"; "banana -> -2"])) /\
    STOCK_DATA w' = VDict [("apple", VInt 7); ("banana", VInt (-2))].
Proof.
  destruct (main_run (fresh_world (VDict []) "t") [] eq_refl
              ltac:(discriminate)) as (w' & Hrun & Hs & _).
  exists w'. split; [exact Hrun | exact Hs].
Defined.

(** ** A saved mapping as a snapshot *)

Lemma add_item_disk : forall item qty logs w,
  disk (snd (add_item item qty logs w)) = disk w.
Proof.
  intros item qty logs w. unfold add_item.
  destruct item as [| | |name| |]; try reflexivity.
  destruct (isinstance_int qty); [|reflexivity]. run.
  destruct (method_get (STOCK_DATA w) (VStr name) (VInt 0)) as [old|e];
    [|reflexivity]. simpl.
  destruct (py_add old qty) as [new|e]; [|reflexivity]. simpl.
  destruct (setitem (STOCK_DATA w) name new) as [stock'|e];
    [|reflexivity]. simpl.
  destruct (py_str qty); reflexivity.
Qed.

Lemma remove_item_disk : forall item qty w,
  disk (snd (remove_item item qty w)) = disk w.
Proof.
  intros item qty w. unfold remove_item.
  destruct item as [| | |name| |]; try reflexivity.
  destruct (isinstance_int qty); [|reflexivity]. run.
  destruct (contains (STOCK_DATA w) name) as [[|]|e]; simpl;
    [| reflexivity | destruct (is_KeyError e); reflexivity].
  repeat (match goal with
          | |- context [match getitem ?a ?b with _ => _ end] =>
              destruct (getitem a b); simpl
          | |- context [match py_sub ?a ?b with _ => _ end] =>
              destruct (py_sub a b); simpl
          | |- context [match setitem ?a ?b ?c with _ => _ end] =>
              destruct (setitem a b c); simpl
          | |- context [match py_le_int ?a ?b with _ => _ end] =>
              destruct (py_le_int a b) as [[|]|]; simpl
          | |- context [match delitem ?a ?b with _ => _ end] =>
              destruct (delitem a b); simpl
          | |- context [if is_KeyError ?e then _ else _] =>
              destruct (is_KeyError e); simpl
          end);
    reflexivity.
Qed.

(** X24: a saved mapping is a snapshot.  After [save_data path] on a stock
    mapping whose quantities have a decimal text (at most 4300 digits; text
    keys of code points below 256), one call of [add_item] or of
    [remove_item], whatever its arguments and however it ends, does not
    reach the file: [load_data path] then binds [STOCK_DATA] to the mapping
    that was saved.  This holds for every library that does what [PyJson]
    tells of [json.dump] and [json.load]. *)
Theorem load_data_restores_saved :
  forall json w d path item qty logs,
    PyJson.implements json ->
    STOCK_DATA w = VDict d ->
    stock_mapping d ->
    quantities_fit d ->
    (forall k, disk w path <> Blocked k) ->
    exists w1,
      save_data json path w = (Ok tt, w1) /\
      (exists w3,
         load_data json path (snd (add_item item qty logs w1))
         = (Ok tt, w3) /\ STOCK_DATA w3 = VDict d) /\
      (exists w3,
         load_data json path (snd (remove_item item qty w1))
         = (Ok tt, w3) /\ STOCK_DATA w3 = VDict d).
Proof.
  intros json w d path item qty logs Himpl Hs Hstock Hfit Hopen.
  destruct (save_then_load json w d path Himpl Hs Hstock Hfit Hopen)
    as (text & w1 & _ & Hsave & _ & Hfile & Hread).
  exists w1. split; [exact Hsave|]. split; apply Hread.
  - now rewrite add_item_disk.
  - now rewrite remove_item_disk.
Qed.

Lemma load_data_restores_saved_witness :
  exists w1,
    save_data PyJson.module INVENTORY_FILE
      (fresh_world (VDict [("apple", VInt 7)]) "t") = (Ok tt, w1) /\
    (exists w3,
       load_data PyJson.module INVENTORY_FILE
         (snd (add_item (VStr "pear") (VInt 2) None w1)) = (Ok tt, w3) /\
       STOCK_DATA w3 = VDict [("apple", VInt 7)]) /\
    (exists w3,
       load_data PyJson.module INVENTORY_FILE
         (snd (remove_item (VStr "pear") (VInt 2) w1)) = (Ok tt, w3) /\
       STOCK_DATA w3 = VDict [("apple", VInt 7)]).
Proof.
  apply (load_data_restores_saved PyJson.module
           (fresh_world (VDict [("apple", VInt 7)]) "t")
           [("apple", VInt 7)] INVENTORY_FILE (VStr "pear") (VInt 2) None).
  - split; [reflexivity|]. intros text r H. simpl. now rewrite H.
  - reflexivity.
  - split.
    + repeat constructor; simpl; intuition discriminate.
    + repeat constructor; simpl; eauto.
  - repeat (constructor;
            [intros z [= <-]; apply Nat.leb_le; reflexivity|]).
    constructor.
  - discriminate.
Defined.

(** ** Integers without a decimal text *)

(** X25: [add_item] with an integer quantity that has no decimal text (more
    than 4300 digits) raises [ValueError] at the f-string of line 36, after
    line 35 has updated the mapping: the name holds the old quantity (0 if
    absent) plus [qty], nothing is appended to the collector or logged, and
    the disk is untouched. *)
Theorem add_item_long_quantity :
  forall w d name qty q0 logs,
    STOCK_DATA w = VDict d ->
    get_qty (VStr name) w = (Ok (VInt q0), w) ->
    ~ int_fits qty ->
    add_item (VStr name) (VInt qty) logs w
    = (Raise ValueError,
       with_stock w (VDict (Dict.set d name (VInt (q0 + qty))))).
Proof.
  intros w d name qty q0 logs Hd Hget Hlong.
  assert (Hq : int_of (match Dict.lookup d name with
                       | Some v => v | None => VInt 0 end) = Some q0).
  { revert Hget. unfold get_qty; run. rewrite Hd; simpl.
    intros [= ->]. reflexivity. }
  rewrite (add_item_run w d name (VInt qty) logs q0 qty Hd Hq eq_refl eq_refl).
  change (py_str (VInt qty)) with (int_str qty).
  now rewrite (int_str_too_long _ Hlong).
Qed.

Lemma add_item_long_quantity_witness :
  add_item (VStr "apple") (VInt (10 ^ 4300)) None (fresh_world (VDict []) "t")
  = (Raise ValueError,
     with_stock (fresh_world (VDict []) "t")
       (VDict (Dict.set [] "apple" (VInt (0 + 10 ^ 4300))))).
Proof.
  exact (add_item_long_quantity (fresh_world (VDict []) "t") [] "apple"
           (10 ^ 4300) 0 None eq_refl eq_refl long_quantity).
Defined.

(** The loop of the encoder stops at the first quantity without a decimal
    text, whatever stands after it. *)
Lemma dict_loop_stops : forall d1 first k z d2,
  int_valued d1 ->
  quantities_fit d1 ->
  ~ int_fits z ->
  snd (PyJson.dict_loop (fun x => PyJson.iterencode x 1)
         ("," ++ PyJson.newline_indent 1) first
         (d1 ++ (k, VInt z) :: d2)%list)
  = Some ValueError.
Proof.
  induction d1 as [|[k1 v1] d1 IH]; intros first k z d2 Hint Hfit Hz.
  - cbn [app PyJson.dict_loop PyJson.iterencode PyJson.scalar].
    rewrite (int_str_too_long _ Hz). reflexivity.
  - inversion Hint as [|? ? [z1 Hz1] Hint']; subst. simpl in Hz1; subst v1.
    inversion Hfit as [|? ? Hf1 Hfit']; subst.
    specialize (Hf1 z1 eq_refl).
    specialize (IH false k z d2 Hint' Hfit' Hz).
    cbn [app PyJson.dict_loop].
    rewrite (PyJsonFacts.iterencode_int z1 1 Hf1).
    destruct (PyJson.dict_loop (fun x => PyJson.iterencode x 1)
                ("," ++ PyJson.newline_indent 1) false
                (d1 ++ (k, VInt z) :: d2)%list) as [t o].
    simpl in IH. subst o. reflexivity.
Qed.

Lemma dump_stops : forall d1 k z d2,
  int_valued d1 ->
  quantities_fit d1 ->
  ~ int_fits z ->
  snd (PyJson.dump (VDict (d1 ++ (k, VInt z) :: d2)%list)) = Some ValueError.
Proof.
  intros d1 k z d2 Hint Hfit Hz.
  pose proof (dict_loop_stops d1 true k z d2 Hint Hfit Hz) as H.
  unfold PyJson.dump.
  destruct (d1 ++ (k, VInt z) :: d2)%list as [|kv d] eqn:E.
  - destruct d1; discriminate E.
  - cbn [PyJson.iterencode].
    destruct (PyJson.dict_loop (fun x => PyJson.iterencode x 1)
                ("," ++ PyJson.newline_indent 1) true (kv :: d)) as [t o].
    simpl in H. subst o. reflexivity.
Qed.

(** X26: [save_data] does not handle the [ValueError] that [json.dump]
    raises at an integer quantity without a decimal text (more than 4300
    digits) that stands after quantities that have one: the exception
    leaves [save_data], nothing is logged, the mapping is as it was, and the
    file, truncated when it was opened, holds what [json.dump] wrote before
    it stopped.  This holds for every library that does what [PyJson] tells
    of [json.dump]. *)
Theorem save_data_long_quantity_propagates :
  forall json w d1 k z d2 path,
    PyJson.implements json ->
    STOCK_DATA w = VDict (d1 ++ (k, VInt z) :: d2)%list ->
    int_valued d1 ->
    quantities_fit d1 ->
    ~ int_fits z ->
    (forall k', disk w path <> Blocked k') ->
    snd (PyJson.dump (STOCK_DATA w)) = Some ValueError /\
    save_data json path w
    = (Raise ValueError,
       with_disk w
         (update (update (disk w) path (File "")) path
            (File (fst (PyJson.dump (STOCK_DATA w)))))).
Proof.
  intros json w d1 k z d2 path [Hdump _] Hs Hint Hfit Hz Hopen.
  assert (Hstop : snd (PyJson.dump (STOCK_DATA w)) = Some ValueError).
  { rewrite Hs. now apply dump_stops. }
  split; [exact Hstop|].
  apply save_data_stopped; [|reflexivity|exact Hopen].
  rewrite Hdump. destruct (PyJson.dump (STOCK_DATA w)) as [t o].
  simpl in Hstop. now subst o.
Qed.

Lemma save_data_long_quantity_propagates_witness :
  snd (PyJson.dump
         (STOCK_DATA
            (fresh_world
               (VDict [("pear", VInt 2); ("apple", VInt (10 ^ 4300))]) "t")))
  = Some ValueError /\
  fst (save_data PyJson.module INVENTORY_FILE
         (fresh_world
            (VDict [("pear", VInt 2); ("apple", VInt (10 ^ 4300))]) "t"))
  = Raise ValueError.
Proof.
  destruct (save_data_long_quantity_propagates PyJson.module
              (fresh_world
                 (VDict [("pear", VInt 2); ("apple", VInt (10 ^ 4300))]) "t")
              [("pear", VInt 2)] "apple" (10 ^ 4300) [] INVENTORY_FILE)
    as [Hstop Hrun].
  - split; [reflexivity|]. intros text r H. simpl. now rewrite H.
  - reflexivity.
  - constructor; [eexists; reflexivity|constructor].
  - constructor; [intros z [= <-]; apply Nat.leb_le; reflexivity|constructor].
  - exact long_quantity.
  - discriminate.
  - split; [exact Hstop|]. now rewrite Hrun.
Defined.

Lemma print_items_stops : forall d1 k z d2 w out,
  int_valued d1 ->
  quantities_fit d1 ->
  ~ int_fits z ->
  print_items (d1 ++ (k, VInt z) :: d2)%list (w, out)
  = (Raise ValueError, (w, (out ++ map report_line d1)%list)).
Proof.
  induction d1 as [|[k1 v1] d1 IH]; intros k z d2 w out Hint Hfit Hz.
  - cbn [app print_items map].
    change (py_str (VInt z)) with (int_str z).
    rewrite (int_str_too_long _ Hz). io_run. now rewrite app_nil_r.
  - inversion Hint as [|? ? [z1 Hz1] Hint']; subst. simpl in Hz1; subst v1.
    inversion Hfit as [|? ? Hf1 Hfit']; subst.
    specialize (Hf1 z1 eq_refl).
    cbn [app print_items map].
    change (py_str (VInt z1)) with (int_str z1).
    rewrite (int_str_fits _ Hf1). io_run.
    rewrite (IH k z d2 _ _ Hint' Hfit' Hz). now rewrite <- app_assoc.
Qed.

(** X27: [print_data] on a mapping that holds an integer quantity without a
    decimal text (more than 4300 digits) after quantities that have one
    prints the header and the lines of the entries before it, then raises
    [ValueError] at the f-string of line 108; the mapping, the disk and the
    log are as they were. *)
Theorem print_data_long_quantity :
  forall w d1 k z d2 out,
    STOCK_DATA w = VDict (d1 ++ (k, VInt z) :: d2)%list ->
    int_valued d1 ->
    quantities_fit d1 ->
    ~ int_fits z ->
    print_data (w, out)
    = (Raise ValueError,
       (w, out ++ "Items Report:" :: map report_line d1)%list).
Proof.
  intros w d1 k z d2 out Hs Hint Hfit Hz.
  unfold print_data. io_run. rewrite Hs; simpl.
  rewrite (print_items_stops _ _ _ _ _ _ Hint Hfit Hz).
  now rewrite <- app_assoc.
Qed.

Lemma print_data_long_quantity_witness :
  print_data
    (fresh_world
       (VDict [("pear", VInt 2); ("apple", VInt (10 ^ 4300));
               ("fig", VInt 1)]) "t", [])
  = (Raise ValueError,
     (fresh_world
        (VDict [("pear", VInt 2); ("apple", VInt (10 ^ 4300));
                ("fig", VInt 1)]) "t",
      ["Items Report:"; "pear -> 2"])).
Proof.
  apply (print_data_long_quantity
           (fresh_world
              (VDict [("pear", VInt 2); ("apple", VInt (10 ^ 4300));
                      ("fig", VInt 1)]) "t")
           [("pear", VInt 2)] "apple" (10 ^ 4300) [("fig", VInt 1)] []).
  - reflexivity.
  - constructor; [eexists; reflexivity|constructor].
  - constructor; [intros z [= <-]; apply Nat.leb_le; reflexivity|constructor].
  - exact long_quantity.
Defined.
